(** * ragbuilder: component registry and data-ingest configuration loader

    A shallow embedding of
      - [src/ragbuilder/config/components.py]: the package requirement
        record [_PkgSpec], the component enumerations and the registry
        tables that map an enumeration member to a lazily imported class;
      - [src/ragbuilder/data_ingest/config.py]: the pydantic schemas of the
        single-run and the multi-option configuration, [load_config] and
        [save_config].

    Python values are modelled as inductive data, dictionaries as [gmap]s
    keyed by strings, exceptions as an explicit result type. *)

From Stdlib Require Import Ascii.
From stdpp Require Import gmap strings list fin_maps pretty.

#[local] Set Warnings "-register-all".
#[local] Open Scope string_scope.
#[local] Open Scope Z_scope.

(** ** Python strings *)

(** [s.replace(old, new)] for one-character [old] and [new]. *)
Fixpoint str_replace_char (old new : Ascii.ascii) (s : string) : string :=
  match s with
  | EmptyString => EmptyString
  | String c rest =>
      String (if bool_decide (c = old) then new else c) (str_replace_char old new rest)
  end.

(** [needle in haystack] on two strings: the substring test. *)
Fixpoint str_contains (needle haystack : string) : bool :=
  String.prefix needle haystack ||
  match haystack with
  | EmptyString => false
  | String _ rest => str_contains needle rest
  end.

(** Truthiness of a string: [not s] holds exactly for the empty string. *)
Definition str_truthy (s : string) : bool :=
  match s with EmptyString => false | String _ _ => true end.

(** ** components.py *)

(** The dataclass [_PkgSpec]; [_PkgSpec.new] is the generated [__init__]
    followed by [__post_init__]. *)
Module _PkgSpec.
Record t := mk { install_name : string; import_name : string }.

Definition __post_init__ (self : t) : t :=
  if negb (str_truthy (import_name self))
  then mk (install_name self) (str_replace_char "-"%char "_"%char (install_name self))
  else self.

Definition new (install_name : string) (import_name : string) : t :=
  __post_init__ (mk install_name import_name).

(** [_PkgSpec(install_name)]: the field default [import_name = ""]. *)
Definition of_install_name (install_name : string) : t := new install_name "".

End _PkgSpec.

(** A [str]-mixin [Enum]: its members, the value of each, and the lookup of
    a member by value that [EnumClass(value)] performs. *)
Definition enum_of_value {E : Type} (members : list E) (value : E → string)
    (s : string) : option E :=
  List.find (λ m, String.eqb (value m) s) members.

Module GraphType.
Inductive t := NEO4J.
Definition value (m : t) : string := match m with NEO4J => "neo4j" end.
Definition members : list t := [NEO4J].
Definition of_value : string → option t := enum_of_value members value.
End GraphType.

Module LLMType.
Inductive t :=
  OPENAI | AZURE_OPENAI | HUGGINGFACE | OLLAMA | COHERE | VERTEXAI | BEDROCK | JINA | CUSTOM.
Definition value (m : t) : string :=
  match m with
  | OPENAI => "openai"
  | AZURE_OPENAI => "azure_openai"
  | HUGGINGFACE => "huggingface"
  | OLLAMA => "ollama"
  | COHERE => "cohere"
  | VERTEXAI => "vertexai"
  | BEDROCK => "bedrock"
  | JINA => "jina"
  | CUSTOM => "custom"
  end.
Definition members : list t :=
  [OPENAI; AZURE_OPENAI; HUGGINGFACE; OLLAMA; COHERE; VERTEXAI; BEDROCK; JINA; CUSTOM].
Definition of_value : string → option t := enum_of_value members value.
End LLMType.

Module ParserType.
Inductive t :=
  UNSTRUCTURED | PYMUPDF | PYPDF | DOCX | AZURE_BLOB | S3 | DIRECTORY | WEB | CUSTOM.
Definition value (m : t) : string :=
  match m with
  | UNSTRUCTURED => "unstructured"
  | PYMUPDF => "pymupdf"
  | PYPDF => "pypdf"
  | DOCX => "docx"
  | AZURE_BLOB => "azure_blob"
  | S3 => "s3"
  | DIRECTORY => "directory"
  | WEB => "web"
  | CUSTOM => "custom"
  end.
Definition members : list t :=
  [UNSTRUCTURED; PYMUPDF; PYPDF; DOCX; AZURE_BLOB; S3; DIRECTORY; WEB; CUSTOM].
Definition of_value : string → option t := enum_of_value members value.
End ParserType.

Module ChunkingStrategy.
Inductive t := CHARACTER | RECURSIVE | TOKEN | MARKDOWN | HTML | SEMANTIC | CUSTOM.
Definition value (m : t) : string :=
  match m with
  | CHARACTER => "CharacterTextSplitter"
  | RECURSIVE => "RecursiveCharacterTextSplitter"
  | TOKEN => "TokenTextSplitter"
  | MARKDOWN => "MarkdownHeaderTextSplitter"
  | HTML => "HTMLHeaderTextSplitter"
  | SEMANTIC => "SemanticChunker"
  | CUSTOM => "custom"
  end.
Definition members : list t :=
  [CHARACTER; RECURSIVE; TOKEN; MARKDOWN; HTML; SEMANTIC; CUSTOM].
Definition of_value : string → option t := enum_of_value members value.
End ChunkingStrategy.

Module EmbeddingModel.
Inductive t :=
  OPENAI | AZURE_OPENAI | HUGGINGFACE | OLLAMA | COHERE | VERTEXAI | BEDROCK | JINA | CUSTOM.
Definition value (m : t) : string :=
  match m with
  | OPENAI => "openai"
  | AZURE_OPENAI => "azure_openai"
  | HUGGINGFACE => "huggingface"
  | OLLAMA => "ollama"
  | COHERE => "cohere"
  | VERTEXAI => "vertexai"
  | BEDROCK => "bedrock"
  | JINA => "jina"
  | CUSTOM => "custom"
  end.
Definition members : list t :=
  [OPENAI; AZURE_OPENAI; HUGGINGFACE; OLLAMA; COHERE; VERTEXAI; BEDROCK; JINA; CUSTOM].
Definition of_value : string → option t := enum_of_value members value.
End EmbeddingModel.

Module VectorDatabase.
Inductive t :=
  FAISS | CHROMA | PINECONE | WEAVIATE | QDRANT | MILVUS | PGVECTOR | ELASTICSEARCH | CUSTOM.
Definition value (m : t) : string :=
  match m with
  | FAISS => "faiss"
  | CHROMA => "chroma"
  | PINECONE => "pinecone"
  | WEAVIATE => "weaviate"
  | QDRANT => "qdrant"
  | MILVUS => "milvus"
  | PGVECTOR => "pgvector"
  | ELASTICSEARCH => "elasticsearch"
  | CUSTOM => "custom"
  end.
Definition members : list t :=
  [FAISS; CHROMA; PINECONE; WEAVIATE; QDRANT; MILVUS; PGVECTOR; ELASTICSEARCH; CUSTOM].
Definition of_value : string → option t := enum_of_value members value.
End VectorDatabase.

Module RetrieverType.
Inductive t :=
  SIMILARITY | MMR | MULTI_QUERY | BM25 | PARENT_DOC_RETRIEVER_FULL
  | PARENT_DOC_RETRIEVER_LARGE | GRAPH_RETRIEVER | CUSTOM.
Definition value (m : t) : string :=
  match m with
  | SIMILARITY => "similarity"
  | MMR => "mmr"
  | MULTI_QUERY => "multi_query"
  | BM25 => "bm25"
  | PARENT_DOC_RETRIEVER_FULL => "parent_doc_full"
  | PARENT_DOC_RETRIEVER_LARGE => "parent_doc_large"
  | GRAPH_RETRIEVER => "graph"
  | CUSTOM => "custom"
  end.
Definition members : list t :=
  [SIMILARITY; MMR; MULTI_QUERY; BM25; PARENT_DOC_RETRIEVER_FULL;
   PARENT_DOC_RETRIEVER_LARGE; GRAPH_RETRIEVER; CUSTOM].
Definition of_value : string → option t := enum_of_value members value.
End RetrieverType.

Module RerankerType.
Inductive t :=
  MXBAI_LARGE | MXBAI_BASE | BGE_BASE | FLASH_RANK | COHERE | JINA | COLBERT | RANKLLM | CUSTOM.
Definition value (m : t) : string :=
  match m with
  | MXBAI_LARGE => "mixedbread-ai/mxbai-rerank-large-v1"
  | MXBAI_BASE => "mixedbread-ai/mxbai-rerank-base-v1"
  | BGE_BASE => "BAAI/bge-reranker-base"
  | FLASH_RANK => "flashrank"
  | COHERE => "cohere"
  | JINA => "jina"
  | COLBERT => "colbert"
  | RANKLLM => "rankllm"
  | CUSTOM => "custom"
  end.
Definition members : list t :=
  [MXBAI_LARGE; MXBAI_BASE; BGE_BASE; FLASH_RANK; COHERE; JINA; COLBERT; RANKLLM; CUSTOM].
Definition of_value : string → option t := enum_of_value members value.
End RerankerType.

Module EvaluatorType.
Inductive t := SIMILARITY | RAGAS | CUSTOM.
Definition value (m : t) : string :=
  match m with
  | SIMILARITY => "similarity"
  | RAGAS => "ragas"
  | CUSTOM => "custom"
  end.
Definition members : list t := [SIMILARITY; RAGAS; CUSTOM].
Definition of_value : string → option t := enum_of_value members value.
End EvaluatorType.

(** [lazy_load(module_path, class_name)] returns the closure [get_class];
    the closure is the pair it captures. *)
Record lazy_ref := lazy_load { module_path : string; class_name : string }.

(** A dictionary display [{k1: v1, k2: v2, ...}]: entries are stored left to
    right, a later entry for an equal key replaces the earlier value.  The
    enumerations mix in [str], so a member hashes and compares as its
    value: the tables are keyed by the members' values. *)
Definition dict_display {V : Type} (entries : list (string * V)) : gmap string V :=
  foldl (λ d kv, <[kv.1 := kv.2]> d) ∅ entries.

Definition LLM_MAP : gmap string lazy_ref :=
  dict_display [
    (LLMType.value LLMType.OPENAI, lazy_load "langchain_openai" "ChatOpenAI");
    (LLMType.value LLMType.AZURE_OPENAI, lazy_load "langchain_openai" "AzureChatOpenAI")
  ].

Definition LOADER_MAP : gmap string lazy_ref :=
  dict_display [
    (ParserType.value ParserType.UNSTRUCTURED,
      lazy_load "langchain_community.document_loaders" "UnstructuredFileLoader");
    (ParserType.value ParserType.PYMUPDF,
      lazy_load "langchain_community.document_loaders" "PyMuPDFLoader");
    (ParserType.value ParserType.PYPDF,
      lazy_load "langchain_community.document_loaders" "PyPDFLoader");
    (ParserType.value ParserType.DOCX,
      lazy_load "langchain_community.document_loaders" "Docx2txtLoader");
    (ParserType.value ParserType.AZURE_BLOB,
      lazy_load "langchain_community.document_loaders" "AzureBlobStorageContainerLoader");
    (ParserType.value ParserType.S3,
      lazy_load "langchain_community.document_loaders" "S3DirectoryLoader");
    (ParserType.value ParserType.DIRECTORY,
      lazy_load "langchain_community.document_loaders" "DirectoryLoader");
    (ParserType.value ParserType.WEB,
      lazy_load "langchain_community.document_loaders" "WebBaseLoader")
  ].

Definition CHUNKER_MAP : gmap string lazy_ref :=
  dict_display [
    (ChunkingStrategy.value ChunkingStrategy.CHARACTER,
      lazy_load "langchain_text_splitters" "CharacterTextSplitter");
    (ChunkingStrategy.value ChunkingStrategy.RECURSIVE,
      lazy_load "langchain_text_splitters" "RecursiveCharacterTextSplitter");
    (ChunkingStrategy.value ChunkingStrategy.TOKEN,
      lazy_load "langchain_text_splitters" "TokenTextSplitter");
    (ChunkingStrategy.value ChunkingStrategy.MARKDOWN,
      lazy_load "langchain_text_splitters" "MarkdownHeaderTextSplitter");
    (ChunkingStrategy.value ChunkingStrategy.HTML,
      lazy_load "langchain_text_splitters" "HTMLHeaderTextSplitter");
    (ChunkingStrategy.value ChunkingStrategy.SEMANTIC,
      lazy_load "langchain_experimental.text_splitter" "SemanticChunker")
  ].

Definition EMBEDDING_MAP : gmap string lazy_ref :=
  dict_display [
    (EmbeddingModel.value EmbeddingModel.OPENAI,
      lazy_load "langchain_openai" "OpenAIEmbeddings");
    (EmbeddingModel.value EmbeddingModel.AZURE_OPENAI,
      lazy_load "langchain_openai" "AzureOpenAIEmbeddings");
    (EmbeddingModel.value EmbeddingModel.HUGGINGFACE,
      lazy_load "langchain_huggingface" "HuggingFaceEmbeddings");
    (EmbeddingModel.value EmbeddingModel.OLLAMA,
      lazy_load "langchain_community.embeddings" "OllamaEmbeddings");
    (EmbeddingModel.value EmbeddingModel.COHERE,
      lazy_load "langchain_community.embeddings" "CohereEmbeddings");
    (EmbeddingModel.value EmbeddingModel.VERTEXAI,
      lazy_load "langchain_community.embeddings" "VertexAIEmbeddings");
    (EmbeddingModel.value EmbeddingModel.BEDROCK,
      lazy_load "langchain_community.embeddings" "BedrockEmbeddings");
    (EmbeddingModel.value EmbeddingModel.JINA,
      lazy_load "langchain_community.embeddings" "JinaEmbeddings")
  ].

Definition VECTORDB_MAP : gmap string lazy_ref :=
  dict_display [
    (VectorDatabase.value VectorDatabase.FAISS, lazy_load "langchain.vectorstores" "FAISS");
    (VectorDatabase.value VectorDatabase.CHROMA, lazy_load "langchain.vectorstores" "Chroma");
    (VectorDatabase.value VectorDatabase.PINECONE,
      lazy_load "langchain.vectorstores" "Pinecone");
    (VectorDatabase.value VectorDatabase.WEAVIATE,
      lazy_load "langchain.vectorstores" "Weaviate");
    (VectorDatabase.value VectorDatabase.QDRANT, lazy_load "langchain.vectorstores" "Qdrant");
    (VectorDatabase.value VectorDatabase.MILVUS, lazy_load "langchain.vectorstores" "Milvus");
    (VectorDatabase.value VectorDatabase.PGVECTOR,
      lazy_load "langchain.vectorstores" "PGVector");
    (VectorDatabase.value VectorDatabase.ELASTICSEARCH,
      lazy_load "langchain.vectorstores" "ElasticsearchStore")
  ].

Definition RETRIEVER_MAP : gmap string lazy_ref :=
  dict_display [
    (RetrieverType.value RetrieverType.BM25, lazy_load "langchain.retrievers" "BM25Retriever")
  ].

(** [TABLE[member]]: the subscription of a registry table; [None] is the
    [KeyError] Python raises for a key that is not in the dictionary. *)
Definition table_get {V : Type} (table : gmap string V) (member_value : string) : option V :=
  table !! member_value.

(** An entry of [RERANKER_MAP]: a dictionary with the key ['lazy_load'] and,
    in some entries, the keys ['model_type'], ['lang'] and ['verbose'];
    [None] is a key the entry does not have. *)
Module RerankerEntry.
Record t := mk {
  model_type : option string;
  lang : option string;
  verbose : option Z;
  lazy_load : lazy_ref
}.
End RerankerEntry.

Definition RERANKER_MAP : gmap string RerankerEntry.t :=
  dict_display [
    (RerankerType.value RerankerType.MXBAI_LARGE,
      RerankerEntry.mk (Some "cross-encoder") None (Some 0)
        (lazy_load "rerankers" "Reranker"));
    (RerankerType.value RerankerType.MXBAI_BASE,
      RerankerEntry.mk (Some "cross-encoder") None (Some 0)
        (lazy_load "rerankers" "Reranker"));
    (RerankerType.value RerankerType.BGE_BASE,
      RerankerEntry.mk (Some "TransformerRanker") None (Some 0)
        (lazy_load "rerankers" "Reranker"));
    (RerankerType.value RerankerType.FLASH_RANK,
      RerankerEntry.mk (Some "FlashRankRanker") None (Some 0)
        (lazy_load "rerankers" "Reranker"));
    (RerankerType.value RerankerType.COHERE,
      RerankerEntry.mk (Some "APIRanker") (Some "en") (Some 0)
        (lazy_load "rerankers" "Reranker"));
    (RerankerType.value RerankerType.JINA,
      RerankerEntry.mk (Some "APIRanker") None (Some 0)
        (lazy_load "rerankers" "Reranker"));
    (RerankerType.value RerankerType.COLBERT,
      RerankerEntry.mk (Some "ColBERTRanker") None (Some 0)
        (lazy_load "rerankers" "Reranker"));
    (RerankerType.value RerankerType.RANKLLM,
      RerankerEntry.mk (Some "RankLLMRanker") None (Some 0)
        (lazy_load "rerankers" "Reranker"));
    (RerankerType.value RerankerType.CUSTOM,
      RerankerEntry.mk None None None
        (lazy_load "rerankers" "Reranker"))
  ].

(** An entry of [COMPONENT_ENV_REQUIREMENTS]: a dictionary with the three
    keys ["required"], ["optional"] and ["packages"]. *)
Module EnvRequirements.
Record t := mk {
  required : list string;
  optional : list string;
  packages : list _PkgSpec.t
}.
End EnvRequirements.

(** The entries of the display of [COMPONENT_ENV_REQUIREMENTS], as written. *)
Definition COMPONENT_ENV_REQUIREMENTS_display : list (string * EnvRequirements.t) :=
  [
    (EmbeddingModel.value EmbeddingModel.AZURE_OPENAI,
      EnvRequirements.mk ["AZURE_OPENAI_API_KEY"; "AZURE_OPENAI_ENDPOINT"] ["AZURE_DEPLOYMENT_NAME"]
        [_PkgSpec.of_install_name "langchain-openai"; _PkgSpec.of_install_name "openai"; _PkgSpec.of_install_name "tiktoken"]);
    (EmbeddingModel.value EmbeddingModel.OPENAI,
      EnvRequirements.mk ["OPENAI_API_KEY"] []
        [_PkgSpec.of_install_name "langchain-openai"; _PkgSpec.of_install_name "openai"; _PkgSpec.of_install_name "tiktoken"]);
    (EmbeddingModel.value EmbeddingModel.COHERE,
      EnvRequirements.mk ["COHERE_API_KEY"] []
        [_PkgSpec.of_install_name "cohere"]);
    (EmbeddingModel.value EmbeddingModel.VERTEXAI,
      EnvRequirements.mk ["GOOGLE_APPLICATION_CREDENTIALS"] []
        [_PkgSpec.of_install_name "langchain-google-vertexai"; _PkgSpec.of_install_name "google-cloud-aiplatform"]);
    (EmbeddingModel.value EmbeddingModel.BEDROCK,
      EnvRequirements.mk ["AWS_ACCESS_KEY_ID"; "AWS_SECRET_ACCESS_KEY"; "AWS_REGION"] []
        [_PkgSpec.of_install_name "boto3"]);
    (EmbeddingModel.value EmbeddingModel.JINA,
      EnvRequirements.mk ["JINA_API_KEY"] []
        [_PkgSpec.of_install_name "jina"]);
    (EmbeddingModel.value EmbeddingModel.HUGGINGFACE,
      EnvRequirements.mk [] []
        [_PkgSpec.of_install_name "langchain-huggingface"; _PkgSpec.of_install_name "sentence_transformers"; _PkgSpec.of_install_name "torch"]);
    (EmbeddingModel.value EmbeddingModel.OLLAMA,
      EnvRequirements.mk [] []
        [_PkgSpec.of_install_name "langchain-ollama"; _PkgSpec.of_install_name "ollama"]);
    (VectorDatabase.value VectorDatabase.PINECONE,
      EnvRequirements.mk ["PINECONE_API_KEY"; "PINECONE_ENVIRONMENT"] []
        [_PkgSpec.new "pinecone-client" "pinecone"]);
    (VectorDatabase.value VectorDatabase.WEAVIATE,
      EnvRequirements.mk ["WEAVIATE_URL"; "WEAVIATE_API_KEY"] []
        [_PkgSpec.new "weaviate-client" "weaviate"]);
    (VectorDatabase.value VectorDatabase.QDRANT,
      EnvRequirements.mk ["QDRANT_URL"] ["QDRANT_API_KEY"]
        [_PkgSpec.new "qdrant-client" "qdrant"]);
    (VectorDatabase.value VectorDatabase.MILVUS,
      EnvRequirements.mk ["MILVUS_HOST"; "MILVUS_PORT"] []
        [_PkgSpec.of_install_name "pymilvus"]);
    (VectorDatabase.value VectorDatabase.PGVECTOR,
      EnvRequirements.mk ["PGVECTOR_CONNECTION_STRING"] []
        [_PkgSpec.of_install_name "psycopg2-binary"; _PkgSpec.of_install_name "pgvector"]);
    (VectorDatabase.value VectorDatabase.ELASTICSEARCH,
      EnvRequirements.mk ["ELASTICSEARCH_URL"] ["ELASTICSEARCH_API_KEY"]
        [_PkgSpec.of_install_name "elasticsearch"]);
    (VectorDatabase.value VectorDatabase.CHROMA,
      EnvRequirements.mk [] []
        [_PkgSpec.of_install_name "chromadb"]);
    (VectorDatabase.value VectorDatabase.FAISS,
      EnvRequirements.mk [] []
        [_PkgSpec.of_install_name "faiss-cpu"]);
    (ParserType.value ParserType.UNSTRUCTURED,
      EnvRequirements.mk [] []
        [_PkgSpec.of_install_name "unstructured"]);
    (ParserType.value ParserType.PYMUPDF,
      EnvRequirements.mk [] []
        [_PkgSpec.of_install_name "pymupdf"]);
    (ParserType.value ParserType.PYPDF,
      EnvRequirements.mk [] []
        [_PkgSpec.of_install_name "pypdf"]);
    (ParserType.value ParserType.DOCX,
      EnvRequirements.mk [] []
        [_PkgSpec.new "python-docx" "docx"]);
    (ParserType.value ParserType.AZURE_BLOB,
      EnvRequirements.mk ["AZURE_STORAGE_CONNECTION_STRING"] []
        [_PkgSpec.of_install_name "azure-storage-blob"]);
    (ParserType.value ParserType.S3,
      EnvRequirements.mk ["AWS_ACCESS_KEY_ID"; "AWS_SECRET_ACCESS_KEY"; "AWS_REGION"] []
        [_PkgSpec.of_install_name "boto3"]);
    (ParserType.value ParserType.WEB,
      EnvRequirements.mk [] []
        [_PkgSpec.new "beautifulsoup4" "bs4"; _PkgSpec.of_install_name "requests"]);
    (RetrieverType.value RetrieverType.BM25,
      EnvRequirements.mk [] []
        [_PkgSpec.of_install_name "rank-bm25"]);
    (RerankerType.value RerankerType.COHERE,
      EnvRequirements.mk ["COHERE_API_KEY"] []
        [_PkgSpec.of_install_name "cohere"]);
    (RerankerType.value RerankerType.JINA,
      EnvRequirements.mk ["JINA_API_KEY"] []
        [_PkgSpec.of_install_name "jina"]);
    (RerankerType.value RerankerType.RANKLLM,
      EnvRequirements.mk [] []
        [_PkgSpec.of_install_name "rank-llm"]);
    (RerankerType.value RerankerType.MXBAI_LARGE,
      EnvRequirements.mk [] []
        [_PkgSpec.of_install_name "torch"; _PkgSpec.of_install_name "transformers"]);
    (RerankerType.value RerankerType.MXBAI_BASE,
      EnvRequirements.mk [] []
        [_PkgSpec.of_install_name "torch"; _PkgSpec.of_install_name "transformers"]);
    (RerankerType.value RerankerType.BGE_BASE,
      EnvRequirements.mk [] []
        [_PkgSpec.of_install_name "torch"; _PkgSpec.of_install_name "transformers"]);
    (RerankerType.value RerankerType.FLASH_RANK,
      EnvRequirements.mk [] []
        [_PkgSpec.of_install_name "flash-rank"])
  ].

Definition COMPONENT_ENV_REQUIREMENTS : gmap string EnvRequirements.t :=
  dict_display COMPONENT_ENV_REQUIREMENTS_display.

(** ** Values of a parsed configuration document *)

(** A Python [float].  Nothing here computes with floats: a value is carried
    by its [repr], and conversions to and from it belong to [LaxScalars]. *)
Record pyfloat := PyFloat { float_repr : string }.

(** What [yaml.safe_load] returns for a document of YAML's JSON-like core:
    [None], [bool], [int], [float], [str], [list], and [dict] with string
    keys.  (Timestamps, binary scalars, sets and mappings with other keys
    are outside the model.) *)
Inductive yaml : Type :=
  | YNull
  | YBool (b : bool)
  | YInt (n : Z)
  | YFloat (f : pyfloat)
  | YStr (s : string)
  | YList (items : list yaml)
  | YMap (entries : gmap string yaml).

(** The objects [model_dump()] returns (in its default mode, "python"):
    the values of a document, and members of the enumerations, which are
    kept as they are and not replaced by their values. *)
Inductive pyobj : Type :=
  | PNone
  | PBool (b : bool)
  | PInt (n : Z)
  | PFloat (f : pyfloat)
  | PStr (s : string)
  | PList (items : list pyobj)
  | PDict (entries : gmap string pyobj)
  | PEnum (cls : string) (value : string).

(** A value of a document as an object. *)
Fixpoint of_yaml (y : yaml) : pyobj :=
  match y with
  | YNull => PNone
  | YBool b => PBool b
  | YInt n => PInt n
  | YFloat f => PFloat f
  | YStr s => PStr s
  | YList items => PList (of_yaml <$> items)
  | YMap entries => PDict (of_yaml <$> entries)
  end.

(** ** Exceptions *)

(** One entry of a pydantic [ValidationError]: where, and what kind. *)
Inductive loc_item :=
  | LField (name : string)      (* a field or dictionary key *)
  | LIndex (i : nat)            (* a list position *)
  | LBranch (label : string).   (* the member of a Union that was tried *)

Inductive error_type :=
  | missing            (* a required field is absent *)
  | string_type        (* input is not a string *)
  | int_invalid        (* input is not accepted as an integer *)
  | float_invalid      (* input is not accepted as a float *)
  | bool_invalid       (* input is not accepted as a boolean *)
  | enum_invalid       (* input is not the value of a member *)
  | list_type          (* input is not a list *)
  | dict_type          (* input is not a dictionary *)
  | model_type         (* input is not a dictionary of model fields *)
  | dataclass_type.    (* input is not a dictionary of dataclass fields *)

Record line_error := LineError { loc : list loc_item; type_ : error_type }.

(** [pydantic.ValidationError]: the model that failed and all its errors. *)
Record ValidationError := mkValidationError { title : string; errors : list line_error }.

(** The text of an exception.  [str(e)] of a validation error is kept as
    the error itself. *)
Inductive message :=
  | Msg (text : string)
  | MsgInvalidConfiguration (e : ValidationError).  (* f"Invalid configuration: {str(e)}" *)

(** Why a [TypeError] was raised. *)
Inductive type_error :=
  | not_iterable          (* [x in obj] on an object without membership test *)
  | not_a_mapping.        (* keyword unpacking of an object that is not a mapping *)

Inductive exn :=
  | ValueError (msg : message)
  | TypeError (why : type_error)
  | ValidationError_ (e : ValidationError)
  | ConstructorError          (* yaml: no constructor for a node's tag *)
  | FileNotFoundError (path : string).

(** The result of running a Python expression. *)
Inductive outcome (A : Type) : Type :=
  | Ok (a : A)
  | Raise (e : exn).
Arguments Ok {A} a.
Arguments Raise {A} e.

#[global] Instance outcome_ret : MRet outcome := λ A a, Ok a.
#[global] Instance outcome_bind : MBind outcome := λ A B k x,
  match x with
  | Ok a => k a
  | Raise e => Raise e
  end.

(** ** components.py: importing *)

(** What [import_module(name)] does in a given interpreter: it returns the
    module, raises [ImportError] (or its subclass [ModuleNotFoundError]), or
    raises another exception (a [ValueError] for an empty name, whatever
    the module's own code raises, ...).  [text] is [str(e)]. *)
Inductive import_status (M : Type) : Type :=
  | Imported (m : M)
  | ImportError_ (text : string)
  | OtherException (e : exn) (text : string).
Arguments Imported {M} m.
Arguments ImportError_ {M} text.
Arguments OtherException {M} e text.

(** [_PkgSpec.validate]: only the import errors are caught. *)
Definition _PkgSpec_validate {M : Type} (import_module : string → import_status M)
    (self : _PkgSpec.t) : outcome string :=
  match import_module (_PkgSpec.import_name self) with
  | Imported _ => Ok ""
  | ImportError_ _ => Ok (_PkgSpec.install_name self)
  | OtherException e _ => Raise e
  end.

(** What a call does, as the handler [except Exception] sees it: it
    returns, it raises an instance of [Exception] ([text] is [str(e)]), or
    it raises an exception that is no instance of [Exception]
    ([SystemExit], [KeyboardInterrupt], ...), which the handler does not
    catch. *)
Inductive attempt (X A : Type) : Type :=
  | Returned (a : A)
  | RaisedException (text : string)
  | RaisedOther (x : X).
Arguments Returned {X A} a.
Arguments RaisedException {X A} text.
Arguments RaisedOther {X A} x.

(** A module, as [getattr(module, name)] sees it. *)
Definition py_module (X C : Type) : Type := string → attempt X C.

(** The text of the error [get_class] raises. *)
Definition error_loading (class_name module_path text : string) : string :=
  "Error loading " +:+ class_name +:+ " from module " +:+ module_path +:+ ": " +:+ text.

(** The closure [get_class] that [lazy_load] returns, called.  An
    [Exception] of the import or of the attribute lookup is caught and
    raised again as a [ValueError]; any other exception passes ([inl]). *)
Definition get_class {X C : Type} (import_module : string → attempt X (py_module X C))
    (ref : lazy_ref) : X + outcome C :=
  match import_module (module_path ref) with
  | Returned module =>
      match module (class_name ref) with
      | Returned cls => inr (Ok cls)
      | RaisedException text =>
          inr (Raise (ValueError
                        (Msg (error_loading (class_name ref) (module_path ref) text))))
      | RaisedOther x => inl x
      end
  | RaisedException text =>
      inr (Raise (ValueError (Msg (error_loading (class_name ref) (module_path ref) text))))
  | RaisedOther x => inl x
  end.

(** ** pydantic validation *)

(** The result of validating one input: a value, or every error found. *)
Inductive validated (A : Type) : Type :=
  | Valid (a : A)
  | Invalid (errs : list line_error).
Arguments Valid {A} a.
Arguments Invalid {A} errs.

Definition vmap {A B : Type} (f : A → B) (x : validated A) : validated B :=
  match x with
  | Valid a => Valid (f a)
  | Invalid e => Invalid e
  end.

(** Fields are validated one after the other and errors accumulate in
    field order. *)
Definition vap {A B : Type} (f : validated (A → B)) (x : validated A) : validated B :=
  match f, x with
  | Valid f, Valid a => Valid (f a)
  | Valid _, Invalid e => Invalid e
  | Invalid e, Valid _ => Invalid e
  | Invalid e1, Invalid e2 => Invalid (e1 ++ e2)
  end.

Notation "f <*> x" := (vap f x) (at level 61, left associativity).

(** An error found inside a field, item or union member is reported under
    the location of that field, item or member. *)
Definition prefix_loc (item : loc_item) (errs : list line_error) : list line_error :=
  map (λ le, LineError (item :: loc le) (type_ le)) errs.

Definition under {A : Type} (item : loc_item) (x : validated A) : validated A :=
  match x with
  | Valid a => Valid a
  | Invalid e => Invalid (prefix_loc item e)
  end.

Definition fail {A : Type} (t : error_type) : validated A := Invalid [LineError [] t].

(** A field without default ([Field(...)], or an annotation alone). *)
Definition required {A : Type} (name : string) (validator : yaml → validated A)
    (data : gmap string yaml) : validated A :=
  match data !! name with
  | Some v => under (LField name) (validator v)
  | None => Invalid [LineError [LField name] missing]
  end.

(** A field with [default] or [default_factory]: the default is used as it
    is, without validation, when the key is absent. *)
Definition with_default {A : Type} (name : string) (validator : yaml → validated A)
    (default : A) (data : gmap string yaml) : validated A :=
  match data !! name with
  | Some v => under (LField name) (validator v)
  | None => Valid default
  end.

(** [Optional[T]] *)
Definition nullable {A : Type} (validator : yaml → validated A) (y : yaml)
    : validated (option A) :=
  match y with
  | YNull => Valid None
  | _ => vmap Some (validator y)
  end.

Fixpoint validate_items {A : Type} (validator : yaml → validated A) (i : nat)
    (items : list yaml) : validated (list A) :=
  match items with
  | [] => Valid []
  | y :: rest =>
      Valid cons <*> under (LIndex i) (validator y) <*> validate_items validator (S i) rest
  end.

(** [List[T]] *)
Definition validate_list {A : Type} (validator : yaml → validated A) (y : yaml)
    : validated (list A) :=
  match y with
  | YList items => validate_items validator 0 items
  | _ => fail list_type
  end.

(** [str]: no other type is converted to a string. *)
Definition validate_str (y : yaml) : validated string :=
  match y with
  | YStr s => Valid s
  | _ => fail string_type
  end.

(** [Dict[str, Any]]: the keys are strings already, the values are kept. *)
Definition validate_dict_str_any (y : yaml) : validated (gmap string yaml) :=
  match y with
  | YMap entries => Valid entries
  | _ => fail dict_type
  end.

(** A field whose type is a [str]-mixin enumeration: the input has to be
    the value of a member. *)
Definition validate_enum {E : Type} (of_value : string → option E) (y : yaml)
    : validated E :=
  match y with
  | YStr s =>
      match of_value s with
      | Some m => Valid m
      | None => fail enum_invalid
      end
  | _ => fail enum_invalid
  end.

(** A field whose type is a model: the input has to be a dictionary, and
    its entries are validated as the model's fields.  Keys that are not
    fields of the model are ignored (pydantic's default, [extra='ignore'];
    no class of [config.py] sets [model_config]). *)
Definition validate_model {A : Type} (fields : gmap string yaml → validated A) (y : yaml)
    : validated A :=
  match y with
  | YMap entries => fields entries
  | _ => fail model_type
  end.

(** A field whose type is a standard dataclass. *)
Definition validate_dataclass {A : Type} (fields : gmap string yaml → validated A)
    (y : yaml) : validated A :=
  match y with
  | YMap entries => fields entries
  | _ => fail dataclass_type
  end.

(** [Union[str, List[str]]]: a string is a [str], a list of strings is a
    [List[str]]; otherwise the errors of both members are reported. *)
Definition validate_str_or_list (y : yaml) : validated (string + list string) :=
  match validate_str y, validate_list validate_str y with
  | Valid s, _ => Valid (inl s)
  | Invalid _, Valid l => Valid (inr l)
  | Invalid e1, Invalid e2 =>
      Invalid (prefix_loc (LBranch "str") e1 ++ prefix_loc (LBranch "list[str]") e2)
  end.

(** pydantic validates in lax mode: besides a value of the field's own
    type, an [int], [float] or [bool] field accepts some scalars of another
    type (a numeric string, an integral float, ...).  Which ones, and with
    what result, is the library's conversion table; the model takes it as
    given and fixes only what does not depend on it: a value of the field's
    own type is kept, and [None], lists and dictionaries are refused. *)
Record LaxScalars := {
  lax_int : yaml → option Z;
  lax_float : yaml → option pyfloat;
  lax_bool : yaml → option bool
}.

Definition validate_int (L : LaxScalars) (y : yaml) : validated Z :=
  match y with
  | YInt n => Valid n
  | YBool _ | YFloat _ | YStr _ =>
      match lax_int L y with
      | Some n => Valid n
      | None => fail int_invalid
      end
  | YNull | YList _ | YMap _ => fail int_invalid
  end.

Definition validate_float (L : LaxScalars) (y : yaml) : validated pyfloat :=
  match y with
  | YFloat f => Valid f
  | YBool _ | YInt _ | YStr _ =>
      match lax_float L y with
      | Some f => Valid f
      | None => fail float_invalid
      end
  | YNull | YList _ | YMap _ => fail float_invalid
  end.

Definition validate_bool (L : LaxScalars) (y : yaml) : validated bool :=
  match y with
  | YBool b => Valid b
  | YInt _ | YFloat _ | YStr _ =>
      match lax_bool L y with
      | Some b => Valid b
      | None => fail bool_invalid
      end
  | YNull | YList _ | YMap _ => fail bool_invalid
  end.

(** ** pydantic serialisation: [model_dump] *)

Definition dump_option {A : Type} (dump : A → pyobj) (x : option A) : pyobj :=
  match x with
  | Some a => dump a
  | None => PNone
  end.

Definition dump_list {A : Type} (dump : A → pyobj) (l : list A) : pyobj :=
  PList (dump <$> l).

(** A [Dict[str, Any]] field. *)
Definition dump_kwargs (d : gmap string yaml) : pyobj := PDict (of_yaml <$> d).

(** A field whose value is a member of the enumeration [cls]. *)
Definition dump_enum {E : Type} (cls : string) (value : E → string) (m : E) : pyobj :=
  PEnum cls (value m).

(** A [Union[str, List[str]]] field. *)
Definition dump_str_or_list (x : string + list string) : pyobj :=
  match x with
  | inl s => PStr s
  | inr l => dump_list PStr l
  end.

(** ** config.py: the schemas *)

(** What importing [config.py] fixes for the rest of the process.  The
    default of [OptimizationConfig.study_name] is the value of an f-string
    in the class body, [Field(default=f"data_ingest_{...}")]: it is
    evaluated once, when the class statement runs. *)
Record config_module := { study_name_default : string }.

(** [f"data_ingest_{int(time.time()*1000+random.randint(1, 1000))}"], from
    the clock reading in whole milliseconds and the number drawn. *)
Definition import_config (clock_ms : Z) (randint : Z) : config_module :=
  {| study_name_default := "data_ingest_" +:+ pretty (clock_ms + randint) |}.

Module LogConfig.
Record t := mk {
  log_level : Z;
  log_file : option string;
  show_progress_bar : bool;
  verbose : bool
}.
(** [logging.INFO] is 20. *)
Definition default : t := mk 20 None true false.
Definition fields (L : LaxScalars) (data : gmap string yaml) : validated t :=
  Valid mk
    <*> with_default "log_level" (validate_int L) 20 data
    <*> with_default "log_file" (nullable validate_str) None data
    <*> with_default "show_progress_bar" (validate_bool L) true data
    <*> with_default "verbose" (validate_bool L) false data.
Definition validate (L : LaxScalars) : yaml → validated t := validate_dataclass (fields L).
Definition model_dump (self : t) : pyobj :=
  PDict (dict_display [
    ("log_level", PInt (log_level self));
    ("log_file", dump_option PStr (log_file self));
    ("show_progress_bar", PBool (show_progress_bar self));
    ("verbose", PBool (verbose self))
  ]).
End LogConfig.

Module LoaderConfig.
Record t := mk {
  type : ParserType.t;
  loader_kwargs : option (gmap string yaml);
  custom_class : option string
}.
Definition fields (data : gmap string yaml) : validated t :=
  Valid mk
    <*> required "type" (validate_enum ParserType.of_value) data
    <*> with_default "loader_kwargs" (nullable validate_dict_str_any) None data
    <*> with_default "custom_class" (nullable validate_str) None data.
Definition validate : yaml → validated t := validate_model fields.
Definition model_dump (self : t) : pyobj :=
  PDict (dict_display [
    ("type", dump_enum "ParserType" ParserType.value (type self));
    ("loader_kwargs", dump_option dump_kwargs (loader_kwargs self));
    ("custom_class", dump_option PStr (custom_class self))
  ]).
End LoaderConfig.

Module ChunkingStrategyConfig.
Record t := mk {
  type : ChunkingStrategy.t;
  chunker_kwargs : option (gmap string yaml);
  custom_class : option string
}.
Definition fields (data : gmap string yaml) : validated t :=
  Valid mk
    <*> required "type" (validate_enum ChunkingStrategy.of_value) data
    <*> with_default "chunker_kwargs" (nullable validate_dict_str_any) None data
    <*> with_default "custom_class" (nullable validate_str) None data.
Definition validate : yaml → validated t := validate_model fields.
Definition model_dump (self : t) : pyobj :=
  PDict (dict_display [
    ("type", dump_enum "ChunkingStrategy" ChunkingStrategy.value (type self));
    ("chunker_kwargs", dump_option dump_kwargs (chunker_kwargs self));
    ("custom_class", dump_option PStr (custom_class self))
  ]).
End ChunkingStrategyConfig.

Module ChunkSizeConfig.
Record t := mk { min : Z; max : Z; stepsize : Z }.
Definition fields (L : LaxScalars) (data : gmap string yaml) : validated t :=
  Valid mk
    <*> with_default "min" (validate_int L) 100 data
    <*> with_default "max" (validate_int L) 500 data
    <*> with_default "stepsize" (validate_int L) 100 data.
Definition validate (L : LaxScalars) : yaml → validated t := validate_model (fields L).
(** [ChunkSizeConfig()] *)
Definition default : t := mk 100 500 100.
Definition model_dump (self : t) : pyobj :=
  PDict (dict_display [
    ("min", PInt (min self));
    ("max", PInt (max self));
    ("stepsize", PInt (stepsize self))
  ]).
End ChunkSizeConfig.

Module VectorDBConfig.
Record t := mk {
  type : VectorDatabase.t;
  vectordb_kwargs : option (gmap string yaml);
  custom_class : option string
}.
Definition fields (data : gmap string yaml) : validated t :=
  Valid mk
    <*> required "type" (validate_enum VectorDatabase.of_value) data
    <*> with_default "vectordb_kwargs" (nullable validate_dict_str_any) (Some ∅) data
    <*> with_default "custom_class" (nullable validate_str) None data.
Definition validate : yaml → validated t := validate_model fields.
Definition model_dump (self : t) : pyobj :=
  PDict (dict_display [
    ("type", dump_enum "VectorDatabase" VectorDatabase.value (type self));
    ("vectordb_kwargs", dump_option dump_kwargs (vectordb_kwargs self));
    ("custom_class", dump_option PStr (custom_class self))
  ]).
End VectorDBConfig.

Module EmbeddingConfig.
Record t := mk {
  type : EmbeddingModel.t;
  model_kwargs : option (gmap string yaml);
  custom_class : option string
}.
Definition fields (data : gmap string yaml) : validated t :=
  Valid mk
    <*> required "type" (validate_enum EmbeddingModel.of_value) data
    <*> with_default "model_kwargs" (nullable validate_dict_str_any) (Some ∅) data
    <*> with_default "custom_class" (nullable validate_str) None data.
Definition validate : yaml → validated t := validate_model fields.
Definition model_dump (self : t) : pyobj :=
  PDict (dict_display [
    ("type", dump_enum "EmbeddingModel" EmbeddingModel.value (type self));
    ("model_kwargs", dump_option dump_kwargs (model_kwargs self));
    ("custom_class", dump_option PStr (custom_class self))
  ]).
End EmbeddingConfig.

(** The literal [{"top_k": 5, "position_weights": None,
    "relevance_threshold": 0.75}]. *)
Definition default_evaluator_kwargs : gmap string yaml :=
  dict_display [
    ("top_k", YInt 5);
    ("position_weights", YNull);
    ("relevance_threshold", YFloat (PyFloat "0.75"))
  ].

Module EvaluationConfig.
Record t := mk {
  type : EvaluatorType.t;
  custom_class : option string;
  evaluator_kwargs : option (gmap string yaml)
}.
Definition fields (data : gmap string yaml) : validated t :=
  Valid mk
    <*> with_default "type" (validate_enum EvaluatorType.of_value) EvaluatorType.SIMILARITY data
    <*> with_default "custom_class" (nullable validate_str) None data
    <*> with_default "evaluator_kwargs" (nullable validate_dict_str_any)
          (Some default_evaluator_kwargs) data.
Definition validate : yaml → validated t := validate_model fields.
Definition model_dump (self : t) : pyobj :=
  PDict (dict_display [
    ("type", dump_enum "EvaluatorType" EvaluatorType.value (type self));
    ("custom_class", dump_option PStr (custom_class self));
    ("evaluator_kwargs", dump_option dump_kwargs (evaluator_kwargs self))
  ]).
End EvaluationConfig.

Module OptimizationConfig.
Record t := mk {
  type : option string;
  n_trials : option Z;
  n_jobs : option Z;
  timeout : option Z;
  storage : option string;
  study_name : option string;
  load_if_exists : option bool;
  overwrite_study : option bool;
  optimization_direction : option string
}.
Definition fields (L : LaxScalars) (M : config_module) (data : gmap string yaml)
    : validated t :=
  Valid mk
    <*> with_default "type" (nullable validate_str) (Some "Optuna") data
    <*> with_default "n_trials" (nullable (validate_int L)) (Some 10) data
    <*> with_default "n_jobs" (nullable (validate_int L)) (Some 1) data
    <*> with_default "timeout" (nullable (validate_int L)) None data
    <*> with_default "storage" (nullable validate_str) None data
    <*> with_default "study_name" (nullable validate_str) (Some (study_name_default M)) data
    <*> with_default "load_if_exists" (nullable (validate_bool L)) (Some false) data
    <*> with_default "overwrite_study" (nullable (validate_bool L)) (Some false) data
    <*> with_default "optimization_direction" (nullable validate_str) (Some "maximize") data.
Definition validate (L : LaxScalars) (M : config_module) : yaml → validated t :=
  validate_model (fields L M).
(** [OptimizationConfig()], the [default_factory] of the field
    [optimization]: every field takes its default. *)
Definition default (M : config_module) : t :=
  mk (Some "Optuna") (Some 10) (Some 1) None None (Some (study_name_default M))
     (Some false) (Some false) (Some "maximize").
Definition model_dump (self : t) : pyobj :=
  PDict (dict_display [
    ("type", dump_option PStr (type self));
    ("n_trials", dump_option PInt (n_trials self));
    ("n_jobs", dump_option PInt (n_jobs self));
    ("timeout", dump_option PInt (timeout self));
    ("storage", dump_option PStr (storage self));
    ("study_name", dump_option PStr (study_name self));
    ("load_if_exists", dump_option PBool (load_if_exists self));
    ("overwrite_study", dump_option PBool (overwrite_study self));
    ("optimization_direction", dump_option PStr (optimization_direction self))
  ]).
End OptimizationConfig.

(** [title] of the error raised by a model class whose fields did not
    validate. *)
Definition raise_if_invalid {A : Type} (cls : string) (x : validated A) : outcome A :=
  match x with
  | Valid a => Ok a
  | Invalid errs => Raise (ValidationError_ (mkValidationError cls errs))
  end.

(** Unpacking [obj] into keyword arguments: the object has to be a mapping. *)
Definition unpack_kwargs (obj : yaml) : outcome (gmap string yaml) :=
  match obj with
  | YMap entries => Ok entries
  | _ => Raise (TypeError not_a_mapping)
  end.

(** The two fields of [BaseConfig], inherited by both schemas. *)
Definition BaseConfig_input_source (data : gmap string yaml)
    : validated (string + list string) :=
  required "input_source" validate_str_or_list data.

Definition BaseConfig_test_dataset (data : gmap string yaml) : validated string :=
  required "test_dataset" validate_str data.

Module DataIngestOptionsConfig.
Record t := mk {
  input_source : string + list string;
  test_dataset : string;
  document_loaders : option (list LoaderConfig.t);
  chunking_strategies : option (list ChunkingStrategyConfig.t);
  chunk_size : option ChunkSizeConfig.t;
  chunk_overlap : option (list Z);
  embedding_models : option (list EmbeddingConfig.t);
  vector_databases : option (list VectorDBConfig.t);
  sampling_rate : option pyfloat;
  optimization : option OptimizationConfig.t;
  log_config : option LogConfig.t;
  database_logging : option bool;
  database_path : option string;
  evaluation_config : EvaluationConfig.t
}.

Definition default_document_loaders : option (list LoaderConfig.t) :=
  Some [LoaderConfig.mk ParserType.UNSTRUCTURED None None].
Definition default_chunking_strategies : option (list ChunkingStrategyConfig.t) :=
  Some [ChunkingStrategyConfig.mk ChunkingStrategy.RECURSIVE None None].
Definition default_embedding_models : option (list EmbeddingConfig.t) :=
  Some [EmbeddingConfig.mk EmbeddingModel.HUGGINGFACE
          (Some {["model_name" := YStr "sentence-transformers/all-MiniLM-L6-v2"]}) None].
Definition default_vector_databases : option (list VectorDBConfig.t) :=
  Some [VectorDBConfig.mk VectorDatabase.FAISS (Some ∅) None].
Definition default_evaluation_config : EvaluationConfig.t :=
  EvaluationConfig.mk EvaluatorType.SIMILARITY None (Some default_evaluator_kwargs).

Definition fields (L : LaxScalars) (M : config_module) (data : gmap string yaml)
    : validated t :=
  Valid mk
    <*> BaseConfig_input_source data
    <*> BaseConfig_test_dataset data
    <*> with_default "document_loaders"
          (nullable (validate_list LoaderConfig.validate)) default_document_loaders data
    <*> with_default "chunking_strategies"
          (nullable (validate_list ChunkingStrategyConfig.validate))
          default_chunking_strategies data
    <*> with_default "chunk_size"
          (nullable (ChunkSizeConfig.validate L)) (Some ChunkSizeConfig.default) data
    <*> with_default "chunk_overlap"
          (nullable (validate_list (validate_int L))) (Some [100]) data
    <*> with_default "embedding_models"
          (nullable (validate_list EmbeddingConfig.validate)) default_embedding_models data
    <*> with_default "vector_databases"
          (nullable (validate_list VectorDBConfig.validate)) default_vector_databases data
    <*> with_default "sampling_rate" (nullable (validate_float L)) None data
    <*> with_default "optimization"
          (nullable (OptimizationConfig.validate L M))
          (Some (OptimizationConfig.default M)) data
    <*> with_default "log_config"
          (nullable (LogConfig.validate L)) (Some LogConfig.default) data
    <*> with_default "database_logging" (nullable (validate_bool L)) (Some true) data
    <*> with_default "database_path" (nullable validate_str) (Some "eval.db") data
    <*> with_default "evaluation_config" EvaluationConfig.validate
          default_evaluation_config data.

(** The class called on [config_dict] unpacked into keyword arguments. *)
Definition new (L : LaxScalars) (M : config_module) (config_dict : yaml) : outcome t :=
  data ← unpack_kwargs config_dict;
  raise_if_invalid "DataIngestOptionsConfig" (fields L M data).

(** The names the schema declares. *)
Definition field_names : list string :=
  ["input_source"; "test_dataset"; "document_loaders"; "chunking_strategies";
   "chunk_size"; "chunk_overlap"; "embedding_models"; "vector_databases";
   "sampling_rate"; "optimization"; "log_config"; "database_logging";
   "database_path"; "evaluation_config"].

Definition model_dump (self : t) : pyobj :=
  PDict (dict_display [
    ("input_source", dump_str_or_list (input_source self));
    ("test_dataset", PStr (test_dataset self));
    ("document_loaders",
      dump_option (dump_list LoaderConfig.model_dump) (document_loaders self));
    ("chunking_strategies",
      dump_option (dump_list ChunkingStrategyConfig.model_dump) (chunking_strategies self));
    ("chunk_size", dump_option ChunkSizeConfig.model_dump (chunk_size self));
    ("chunk_overlap", dump_option (dump_list PInt) (chunk_overlap self));
    ("embedding_models",
      dump_option (dump_list EmbeddingConfig.model_dump) (embedding_models self));
    ("vector_databases",
      dump_option (dump_list VectorDBConfig.model_dump) (vector_databases self));
    ("sampling_rate", dump_option PFloat (sampling_rate self));
    ("optimization", dump_option OptimizationConfig.model_dump (optimization self));
    ("log_config", dump_option LogConfig.model_dump (log_config self));
    ("database_logging", dump_option PBool (database_logging self));
    ("database_path", dump_option PStr (database_path self));
    ("evaluation_config", EvaluationConfig.model_dump (evaluation_config self))
  ]).
End DataIngestOptionsConfig.

Module DataIngestConfig.
Record t := mk {
  input_source : string + list string;
  test_dataset : string;
  document_loader : LoaderConfig.t;
  chunking_strategy : ChunkingStrategyConfig.t;
  chunk_size : Z;
  chunk_overlap : Z;
  embedding_model : EmbeddingConfig.t;
  vector_database : VectorDBConfig.t;
  sampling_rate : option pyfloat
}.

Definition default_document_loader : LoaderConfig.t :=
  LoaderConfig.mk ParserType.UNSTRUCTURED None None.
Definition default_chunking_strategy : ChunkingStrategyConfig.t :=
  ChunkingStrategyConfig.mk ChunkingStrategy.RECURSIVE None None.
Definition default_embedding_model : EmbeddingConfig.t :=
  EmbeddingConfig.mk EmbeddingModel.HUGGINGFACE
    (Some {["model_name" := YStr "sentence-transformers/all-MiniLM-L6-v2"]}) None.
Definition default_vector_database : VectorDBConfig.t :=
  VectorDBConfig.mk VectorDatabase.FAISS (Some ∅) None.

Definition fields (L : LaxScalars) (data : gmap string yaml) : validated t :=
  Valid mk
    <*> BaseConfig_input_source data
    <*> BaseConfig_test_dataset data
    <*> with_default "document_loader" LoaderConfig.validate default_document_loader data
    <*> with_default "chunking_strategy" ChunkingStrategyConfig.validate
          default_chunking_strategy data
    <*> with_default "chunk_size" (validate_int L) 1000 data
    <*> with_default "chunk_overlap" (validate_int L) 100 data
    <*> with_default "embedding_model" EmbeddingConfig.validate default_embedding_model data
    <*> with_default "vector_database" VectorDBConfig.validate default_vector_database data
    <*> with_default "sampling_rate" (nullable (validate_float L)) None data.

(** The class called on [config_dict] unpacked into keyword arguments. *)
Definition new (L : LaxScalars) (config_dict : yaml) : outcome t :=
  data ← unpack_kwargs config_dict;
  raise_if_invalid "DataIngestConfig" (fields L data).

Definition field_names : list string :=
  ["input_source"; "test_dataset"; "document_loader"; "chunking_strategy";
   "chunk_size"; "chunk_overlap"; "embedding_model"; "vector_database";
   "sampling_rate"].

Definition model_dump (self : t) : pyobj :=
  PDict (dict_display [
    ("input_source", dump_str_or_list (input_source self));
    ("test_dataset", PStr (test_dataset self));
    ("document_loader", LoaderConfig.model_dump (document_loader self));
    ("chunking_strategy", ChunkingStrategyConfig.model_dump (chunking_strategy self));
    ("chunk_size", PInt (chunk_size self));
    ("chunk_overlap", PInt (chunk_overlap self));
    ("embedding_model", EmbeddingConfig.model_dump (embedding_model self));
    ("vector_database", VectorDBConfig.model_dump (vector_database self));
    ("sampling_rate", dump_option PFloat (sampling_rate self))
  ]).
End DataIngestConfig.

(** ** config.py: [load_config] *)

(** [key in obj], the membership test of line 145: keys of a dictionary,
    substrings of a string, items of a list; other objects have none. *)
Definition py_in (key : string) (obj : yaml) : outcome bool :=
  match obj with
  | YMap entries => Ok (bool_decide (is_Some (entries !! key)))
  | YStr s => Ok (str_contains key s)
  | YList items =>
      Ok (existsb (λ y, match y with YStr s => String.eqb key s | _ => false end) items)
  | YNull | YBool _ | YInt _ | YFloat _ => Raise (TypeError not_iterable)
  end.

Definition missing_fields_message : string :=
  "Configuration must include 'input_source' and 'test_data'".

(** Lines 144-156 over the two model classes: the check of the required
    keys, then the two attempts.  [or] evaluates its second operand only
    when the first is false; [except ValidationError] lets every other
    exception pass. *)
Definition load_config_with {A B : Type}
    (options_cls : yaml → outcome A) (single_cls : yaml → outcome B)
    (config_dict : yaml) : outcome (A + B) :=
  has_input_source ← py_in "input_source" config_dict;
  absent ← (if negb has_input_source then Ok true
            else has_test_dataset ← py_in "test_dataset" config_dict;
                 Ok (negb has_test_dataset));
  if (absent : bool) then Raise (ValueError (Msg missing_fields_message))
  else
    match options_cls config_dict with
    | Ok c => Ok (inl c)
    | Raise (ValidationError_ _) =>
        match single_cls config_dict with
        | Ok c => Ok (inr c)
        | Raise (ValidationError_ e) => Raise (ValueError (MsgInvalidConfiguration e))
        | Raise other => Raise other
        end
    | Raise other => Raise other
    end.

(** What [load_config] returns: the multi-option record ([inl]) or the
    single-run record ([inr]). *)
Definition config : Type := DataIngestOptionsConfig.t + DataIngestConfig.t.

(** [load_config] after the document has been read and parsed. *)
Definition load_config_dict (L : LaxScalars) (M : config_module) (config_dict : yaml)
    : outcome config :=
  load_config_with (DataIngestOptionsConfig.new L M) (DataIngestConfig.new L) config_dict.

(** ** PyYAML: [yaml.dump] and [yaml.safe_load] *)

(** The nodes of a YAML document.  A scalar with one of the standard tags
    ([null], [bool], [int], [float], [str]) is given by the value it
    stands for; [NSeq] and [NMap] carry the tags [seq] and [map];
    [NPyApply name args] is a sequence node tagged
    [tag:yaml.org,2002:python/object/apply:name].  A file is identified
    with the node of the document it holds: writing a node and parsing the
    text again gives the node back. *)
Inductive node : Type :=
  | NNull
  | NBool (b : bool)
  | NInt (n : Z)
  | NFloat (f : pyfloat)
  | NStr (s : string)
  | NSeq (items : list node)
  | NMap (entries : gmap string node)
  | NPyApply (function_name : string) (args : list node).

(** [yaml.dump(obj)], that is the representer of [yaml.Dumper].  A member
    of a [str]-mixin enumeration is not of a type the representer has an
    entry for: it is represented as an object, through [__reduce_ex__],
    which for a member [m] gives the class and the arguments [(m.value,)]. *)
Fixpoint represent (obj : pyobj) : node :=
  match obj with
  | PNone => NNull
  | PBool b => NBool b
  | PInt n => NInt n
  | PFloat f => NFloat f
  | PStr s => NStr s
  | PList items => NSeq (represent <$> items)
  | PDict entries => NMap (represent <$> entries)
  | PEnum cls value => NPyApply cls [NStr value]
  end.

(** All the values of a dictionary of results, when each one is a value. *)
Definition map_sequence {A : Type} (m : gmap string (option A)) : option (gmap string A) :=
  if bool_decide (map_Forall (λ _ o, is_Some o) m) then Some (omap id m) else None.

(** The constructor of [yaml.SafeLoader]: it builds the standard tags only,
    and has no constructor for a [python/object/apply] tag ([None]). *)
Fixpoint safe_construct (n : node) : option yaml :=
  match n with
  | NNull => Some YNull
  | NBool b => Some (YBool b)
  | NInt n => Some (YInt n)
  | NFloat f => Some (YFloat f)
  | NStr s => Some (YStr s)
  | NSeq items => YList <$> mapM safe_construct items
  | NMap entries => YMap <$> map_sequence (safe_construct <$> entries)
  | NPyApply _ _ => None
  end.

Definition safe_load (n : node) : outcome yaml :=
  match safe_construct n with
  | Some y => Ok y
  | None => Raise ConstructorError
  end.

(** ** config.py: files *)

(** The files that exist, by path. *)
Definition filesystem : Type := gmap string node.

(** [open(file_path, 'r')] and reading the document. *)
Definition read_document (fs : filesystem) (file_path : string) : outcome node :=
  match fs !! file_path with
  | Some n => Ok n
  | None => Raise (FileNotFoundError file_path)
  end.

Definition load_config (L : LaxScalars) (M : config_module) (fs : filesystem)
    (file_path : string) : outcome config :=
  n ← read_document fs file_path;
  config_dict ← safe_load n;
  load_config_dict L M config_dict.

(** [self.model_dump()], for either class. *)
Definition model_dump (self : config) : pyobj :=
  match self with
  | inl c => DataIngestOptionsConfig.model_dump c
  | inr c => DataIngestConfig.model_dump c
  end.

(** [BaseConfig.to_yaml]: [open(file_path, 'w')] creates or replaces the
    file. *)
Definition to_yaml (self : config) (file_path : string) (fs : filesystem) : filesystem :=
  <[file_path := represent (model_dump self)]> fs.

Definition save_config (cfg : config) (file_path : string) (fs : filesystem) : filesystem :=
  to_yaml cfg file_path fs.

(** [BaseConfig.from_yaml], called on the class [cls]. *)
Definition from_yaml {A : Type} (cls : yaml → outcome A) (fs : filesystem)
    (file_path : string) : outcome A :=
  n ← read_document fs file_path;
  config_dict ← safe_load n;
  cls config_dict.

(** ** Sample inputs *)

(** A conversion table that converts nothing: every scalar of the samples
    below has the type of its field already, so they validate alike under
    every table. *)
Definition no_conversion : LaxScalars :=
  {| lax_int := λ _, None; lax_float := λ _, None; lax_bool := λ _, None |}.

(** The module as imported at clock reading 1700000000000 ms with the
    number 7 drawn. *)
Definition sample_module : config_module := import_config 1700000000000 7.

(** [input_source: docs/] and [test_dataset: qa.csv], nothing else. *)
Definition minimal_doc : gmap string yaml :=
  dict_display [("input_source", YStr "docs/"); ("test_dataset", YStr "qa.csv")].

(** The minimal document with [document_loader: {type: pymupdf}]. *)
Definition singular_loader_doc : gmap string yaml :=
  <["document_loader" := YMap {["type" := YStr "pymupdf"]}]> minimal_doc.

(** The minimal document with [document_loaders: [{type: bogus}]]. *)
Definition bad_loaders_doc : gmap string yaml :=
  <["document_loaders" := YList [YMap {["type" := YStr "bogus"]}]]> minimal_doc.

(** The minimal document with [document_loaders: [{type: pypdf}]]. *)
Definition one_loader_doc : gmap string yaml :=
  <["document_loaders" := YList [YMap {["type" := YStr "pypdf"]}]]> minimal_doc.

(** A single-run document: [document_loader: {type: pymupdf}] and
    [chunk_size: 800]. *)
Definition single_run_doc : gmap string yaml :=
  <["chunk_size" := YInt 800]> singular_loader_doc.

(** The minimal document with the undeclared key [bogus: 1]. *)
Definition extra_key_doc : gmap string yaml := <["bogus" := YInt 1]> minimal_doc.

(** Documents with one of the required keys missing. *)
Definition no_test_dataset_doc : gmap string yaml := {["input_source" := YStr "docs/"]}.
Definition no_input_source_doc : gmap string yaml := {["test_dataset" := YStr "qa.csv"]}.

(** A document that neither schema accepts: [input_source: 5]. *)
Definition invalid_doc : gmap string yaml := <["input_source" := YInt 5]> minimal_doc.

(** The records with every optional field at its default. *)
Definition options_defaults (M : config_module) (input_source : string + list string)
    (test_dataset : string) : DataIngestOptionsConfig.t :=
  DataIngestOptionsConfig.mk input_source test_dataset
    DataIngestOptionsConfig.default_document_loaders
    DataIngestOptionsConfig.default_chunking_strategies
    (Some (ChunkSizeConfig.mk 100 500 100))
    (Some [100])
    DataIngestOptionsConfig.default_embedding_models
    DataIngestOptionsConfig.default_vector_databases
    None
    (Some (OptimizationConfig.default M))
    (Some LogConfig.default)
    (Some true)
    (Some "eval.db")
    DataIngestOptionsConfig.default_evaluation_config.

Definition single_defaults (input_source : string + list string) (test_dataset : string)
    : DataIngestConfig.t :=
  DataIngestConfig.mk input_source test_dataset
    DataIngestConfig.default_document_loader
    DataIngestConfig.default_chunking_strategy
    1000 100
    DataIngestConfig.default_embedding_model
    DataIngestConfig.default_vector_database
    None.

(** The record of [one_loader_doc]. *)
Definition one_loader_record (M : config_module) : DataIngestOptionsConfig.t :=
  DataIngestOptionsConfig.mk (inl "docs/") "qa.csv"
    (Some [LoaderConfig.mk ParserType.PYPDF None None])
    DataIngestOptionsConfig.default_chunking_strategies
    (Some (ChunkSizeConfig.mk 100 500 100))
    (Some [100])
    DataIngestOptionsConfig.default_embedding_models
    DataIngestOptionsConfig.default_vector_databases
    None
    (Some (OptimizationConfig.default M))
    (Some LogConfig.default)
    (Some true)
    (Some "eval.db")
    DataIngestOptionsConfig.default_evaluation_config.

(** The record of [single_run_doc]. *)
Definition single_run_record : DataIngestConfig.t :=
  DataIngestConfig.mk (inl "docs/") "qa.csv"
    (LoaderConfig.mk ParserType.PYMUPDF None None)
    DataIngestConfig.default_chunking_strategy
    800 100
    DataIngestConfig.default_embedding_model
    DataIngestConfig.default_vector_database
    None.

(** * Properties of components.py *)

Section PythonStrings.

Lemma str_replace_char_get (old new : Ascii.ascii) (s : string) (i : nat) :
  String.get i (str_replace_char old new s)
  = (λ c, if bool_decide (c = old) then new else c) <$> String.get i s.
Proof.
  revert i. induction s as [|c rest IH]; intros i; simpl.
  - reflexivity.
  - destruct i as [|i]; simpl; [reflexivity | apply IH].
Qed.

Lemma str_replace_char_length (old new : Ascii.ascii) (s : string) :
  String.length (str_replace_char old new s) = String.length s.
Proof. induction s as [|c rest IH]; simpl; [reflexivity | now rewrite IH]. Qed.

Lemma str_truthy_false (s : string) : str_truthy s = false ↔ s = "".
Proof. destruct s; simpl; split; intros H; try reflexivity; discriminate. Qed.

End PythonStrings.

(** C8. A [_PkgSpec] built from a distribution name alone has as import
    name the distribution name with every hyphen replaced by an underscore
    (same length, position by position, other characters kept); built with
    a non-empty import name, it keeps that name unchanged.  The
    distribution name is kept in both cases. *)
Theorem C8_import_name_derivation (install explicit : string) :
  (_PkgSpec.import_name (_PkgSpec.of_install_name install)
     = str_replace_char "-" "_" install
   ∧ String.length (_PkgSpec.import_name (_PkgSpec.of_install_name install))
     = String.length install
   ∧ (∀ i : nat,
        String.get i (_PkgSpec.import_name (_PkgSpec.of_install_name install))
        = (λ c, if bool_decide (c = "-"%char) then "_"%char else c) <$> String.get i install)
   ∧ _PkgSpec.install_name (_PkgSpec.of_install_name install) = install)
  ∧ (explicit ≠ "" →
     _PkgSpec.import_name (_PkgSpec.new install explicit) = explicit
     ∧ _PkgSpec.install_name (_PkgSpec.new install explicit) = install).
Proof.
  split.
  - unfold _PkgSpec.of_install_name, _PkgSpec.new, _PkgSpec.__post_init__; simpl.
    repeat split.
    + apply str_replace_char_length.
    + intros i. apply str_replace_char_get.
  - intros Hne. unfold _PkgSpec.new, _PkgSpec.__post_init__; simpl.
    destruct (str_truthy explicit) eqn:Ht; simpl; [done|].
    apply str_truthy_false in Ht. contradiction.
Qed.

Lemma C8_import_name_witness :
  _PkgSpec.of_install_name "python-docx" = _PkgSpec.mk "python-docx" "python_docx"
  ∧ _PkgSpec.new "python-docx" "docx" = _PkgSpec.mk "python-docx" "docx".
Proof.
  destruct (C8_import_name_derivation "python-docx" "docx") as [(H1 & _ & _ & H2) H3].
  destruct H3 as [H3 H4]; [discriminate|].
  split.
  - destruct (_PkgSpec.of_install_name "python-docx") as [a b]; simpl in *.
    rewrite H1, H2. reflexivity.
  - destruct (_PkgSpec.new "python-docx" "docx") as [a b]; simpl in *.
    rewrite H3, H4. reflexivity.
Defined.

(** The entries of a registry table, read off member by member. *)
Ltac table_cases :=
  intros []; vm_compute;
  (split;
   [ first [ by intros [? [=]] | by intros _ ]
   | first [ by intros _; eexists | by intros [=] | by intros H; destruct H ] ]).

(** C9. The registry tables are partial over their enumerations.  [CUSTOM]
    is a value the schemas accept for a loader, a chunking strategy, an
    embedding model and a vector database, yet it is the one member of its
    enumeration without an entry in [LOADER_MAP], [CHUNKER_MAP],
    [EMBEDDING_MAP] and [VECTORDB_MAP]: subscripting the table with it
    finds nothing.  [RETRIEVER_MAP] has an entry for [BM25] and for no
    other member. *)
Theorem C9_registry_tables_are_partial :
  (∀ m, is_Some (table_get LOADER_MAP (ParserType.value m)) ↔ m ≠ ParserType.CUSTOM)
  ∧ (∀ m, is_Some (table_get CHUNKER_MAP (ChunkingStrategy.value m))
          ↔ m ≠ ChunkingStrategy.CUSTOM)
  ∧ (∀ m, is_Some (table_get EMBEDDING_MAP (EmbeddingModel.value m))
          ↔ m ≠ EmbeddingModel.CUSTOM)
  ∧ (∀ m, is_Some (table_get VECTORDB_MAP (VectorDatabase.value m))
          ↔ m ≠ VectorDatabase.CUSTOM)
  ∧ (∀ m, is_Some (table_get RETRIEVER_MAP (RetrieverType.value m))
          ↔ m = RetrieverType.BM25)
  ∧ dom RETRIEVER_MAP = {[ "bm25" ]}
  ∧ validate_enum ParserType.of_value (YStr "custom") = Valid ParserType.CUSTOM
  ∧ validate_enum ChunkingStrategy.of_value (YStr "custom") = Valid ChunkingStrategy.CUSTOM
  ∧ validate_enum EmbeddingModel.of_value (YStr "custom") = Valid EmbeddingModel.CUSTOM
  ∧ validate_enum VectorDatabase.of_value (YStr "custom") = Valid VectorDatabase.CUSTOM.
Proof.
  split_and!; try reflexivity; table_cases.
Qed.

(** * Properties of config.py *)

Section Validation.
Context {A B : Type}.
Implicit Types (data : gmap string yaml) (name k : string) (y : yaml).

Lemma required_present name (validator : yaml → validated A) data y :
  data !! name = Some y →
  required name validator data = under (LField name) (validator y).
Proof. intros H. unfold required. now rewrite H. Qed.

Lemma with_default_present name (validator : yaml → validated A) (d : A) data y :
  data !! name = Some y →
  with_default name validator d data = under (LField name) (validator y).
Proof. intros H. unfold with_default. now rewrite H. Qed.

Lemma with_default_absent name (validator : yaml → validated A) (d : A) data :
  data !! name = None → with_default name validator d data = Valid d.
Proof. intros H. unfold with_default. now rewrite H. Qed.

Lemma required_insert_ne name (validator : yaml → validated A) data k y :
  k ≠ name → required name validator (<[k:=y]> data) = required name validator data.
Proof. intros H. unfold required. now rewrite lookup_insert_ne. Qed.

Lemma with_default_insert_ne name (validator : yaml → validated A) (d : A) data k y :
  k ≠ name →
  with_default name validator d (<[k:=y]> data) = with_default name validator d data.
Proof. intros H. unfold with_default. now rewrite lookup_insert_ne. Qed.

Lemma under_Valid_inv (item : loc_item) (x : validated A) (a : A) :
  under item x = Valid a → x = Valid a.
Proof. destruct x; simpl; congruence. Qed.

Lemma under_Invalid (item : loc_item) (x : validated A) (e : list line_error) :
  x = Invalid e → under item x = Invalid (prefix_loc item e).
Proof. now intros ->. Qed.

Lemma vap_Valid_inv (f : validated (A → B)) (x : validated A) (b : B) :
  f <*> x = Valid b → ∃ g a, f = Valid g ∧ x = Valid a ∧ b = g a.
Proof.
  destruct f as [g|e1], x as [a|e2]; simpl; intros H; try discriminate.
  injection H as <-. eauto.
Qed.

Lemma vap_Invalid_l (f : validated (A → B)) (x : validated A) (e : list line_error) :
  f = Invalid e → ∃ e', f <*> x = Invalid e'.
Proof. intros ->. destruct x; simpl; eauto. Qed.

Lemma vap_Invalid_r (f : validated (A → B)) (x : validated A) (e : list line_error) :
  x = Invalid e → ∃ e', f <*> x = Invalid e'.
Proof. intros ->. destruct f; simpl; eauto. Qed.

End Validation.

Section LoadConfigWith.
Context {A B : Type} (options_cls : yaml → outcome A) (single_cls : yaml → outcome B).
Implicit Types (data : gmap string yaml).

(** A required key is absent: the classes are not consulted. *)
Lemma load_config_with_absent data :
  data !! "input_source" = None ∨ data !! "test_dataset" = None →
  load_config_with options_cls single_cls (YMap data)
  = Raise (ValueError (Msg missing_fields_message)).
Proof.
  intros H. unfold load_config_with, py_in; simpl.
  destruct (data !! "input_source") as [src|] eqn:Hs; simpl.
  - destruct H as [H|H]; [discriminate|]. rewrite H. reflexivity.
  - reflexivity.
Qed.

(** Both required keys are present: the two attempts decide. *)
Lemma load_config_with_present data :
  is_Some (data !! "input_source") → is_Some (data !! "test_dataset") →
  load_config_with options_cls single_cls (YMap data)
  = match options_cls (YMap data) with
    | Ok c => Ok (inl c)
    | Raise (ValidationError_ _) =>
        match single_cls (YMap data) with
        | Ok c => Ok (inr c)
        | Raise (ValidationError_ e) => Raise (ValueError (MsgInvalidConfiguration e))
        | Raise other => Raise other
        end
    | Raise other => Raise other
    end.
Proof.
  intros [src Hs] [ts Ht]. unfold load_config_with, py_in; simpl.
  rewrite Hs, Ht. reflexivity.
Qed.

End LoadConfigWith.

(** The class calls on a dictionary, by the result of the field
    validation. *)
Lemma options_new_YMap (L : LaxScalars) (M : config_module) (data : gmap string yaml) :
  DataIngestOptionsConfig.new L M (YMap data)
  = raise_if_invalid "DataIngestOptionsConfig" (DataIngestOptionsConfig.fields L M data).
Proof. reflexivity. Qed.

Lemma single_new_YMap (L : LaxScalars) (data : gmap string yaml) :
  DataIngestConfig.new L (YMap data)
  = raise_if_invalid "DataIngestConfig" (DataIngestConfig.fields L data).
Proof. reflexivity. Qed.

(** [load_config] on a dictionary with both required keys, by the results
    of the two field validations. *)
Lemma load_config_dict_present (L : LaxScalars) (M : config_module)
    (data : gmap string yaml) :
  is_Some (data !! "input_source") → is_Some (data !! "test_dataset") →
  load_config_dict L M (YMap data)
  = match DataIngestOptionsConfig.fields L M data with
    | Valid c => Ok (inl c)
    | Invalid _ =>
        match DataIngestConfig.fields L data with
        | Valid c => Ok (inr c)
        | Invalid e =>
            Raise (ValueError (MsgInvalidConfiguration (mkValidationError "DataIngestConfig" e)))
        end
    end.
Proof.
  intros Hs Ht. unfold load_config_dict.
  rewrite load_config_with_present by assumption.
  rewrite options_new_YMap, single_new_YMap.
  destruct (DataIngestOptionsConfig.fields L M data); simpl; [reflexivity|].
  destruct (DataIngestConfig.fields L data); reflexivity.
Qed.

(** The sample documents have no scalar that needs a conversion: they load
    alike under every conversion table and in every process. *)
Lemma sample_documents_load (L : LaxScalars) (M : config_module) :
  load_config_dict L M (YMap minimal_doc)
    = Ok (inl (options_defaults M (inl "docs/") "qa.csv"))
  ∧ load_config_dict L M (YMap singular_loader_doc)
    = Ok (inl (options_defaults M (inl "docs/") "qa.csv"))
  ∧ load_config_dict L M (YMap bad_loaders_doc)
    = Ok (inr (single_defaults (inl "docs/") "qa.csv"))
  ∧ load_config_dict L M (YMap single_run_doc) = Ok (inr single_run_record)
  ∧ DataIngestConfig.new L (YMap extra_key_doc)
    = Ok (single_defaults (inl "docs/") "qa.csv")
  ∧ DataIngestOptionsConfig.new L M (YMap extra_key_doc)
    = Ok (options_defaults M (inl "docs/") "qa.csv").
Proof. split_and!; vm_compute; reflexivity. Qed.

(** C2. On a document with both required keys, [load_config] validates
    against the multi-option schema first and returns that record when the
    validation succeeds, whatever the single-run class would do; when it
    fails, the single-run schema is validated and its record returned; when
    both fail, the [ValueError] raised carries the validation error of the
    single-run schema ([DataIngestConfig]) and nothing of the multi-option
    failure. *)
Theorem C2_options_first_then_single (L : LaxScalars) (M : config_module)
    (data : gmap string yaml) :
  is_Some (data !! "input_source") → is_Some (data !! "test_dataset") →
  (∀ c, DataIngestOptionsConfig.fields L M data = Valid c →
     load_config_dict L M (YMap data) = Ok (inl c)
     ∧ ∀ (B : Type) (single_cls : yaml → outcome B),
         load_config_with (DataIngestOptionsConfig.new L M) single_cls (YMap data)
         = Ok (inl c))
  ∧ (∀ e1 c, DataIngestOptionsConfig.fields L M data = Invalid e1 →
       DataIngestConfig.fields L data = Valid c →
       load_config_dict L M (YMap data) = Ok (inr c))
  ∧ (∀ e1 e2, DataIngestOptionsConfig.fields L M data = Invalid e1 →
       DataIngestConfig.fields L data = Invalid e2 →
       load_config_dict L M (YMap data)
       = Raise (ValueError (MsgInvalidConfiguration
                              (mkValidationError "DataIngestConfig" e2)))).
Proof.
  intros Hs Ht. split_and!.
  - intros c Hc. split.
    + rewrite load_config_dict_present, Hc by assumption. reflexivity.
    + intros B single_cls. rewrite load_config_with_present by assumption.
      rewrite options_new_YMap, Hc. reflexivity.
  - intros e1 c H1 H2. rewrite load_config_dict_present, H1, H2 by assumption. reflexivity.
  - intros e1 e2 H1 H2. rewrite load_config_dict_present, H1, H2 by assumption. reflexivity.
Qed.

Lemma C2_options_first_witness :
  load_config_dict no_conversion sample_module (YMap invalid_doc)
  = Raise (ValueError (MsgInvalidConfiguration
      (mkValidationError "DataIngestConfig"
         [LineError [LField "input_source"; LBranch "str"] string_type;
          LineError [LField "input_source"; LBranch "list[str]"] list_type]))).
Proof.
  assert (Hs : is_Some (invalid_doc !! "input_source")) by (vm_compute; eauto).
  assert (Ht : is_Some (invalid_doc !! "test_dataset")) by (vm_compute; eauto).
  destruct (C2_options_first_then_single no_conversion sample_module invalid_doc Hs Ht)
    as (_ & _ & H).
  eapply H; vm_compute; reflexivity.
Defined.

(** C4 (amended). On a dictionary without [test_dataset] or without
    [input_source], [load_config] raises a [ValueError] before either
    schema is tried: whatever the two classes are, the result is the same,
    one fixed message that does not depend on which key is missing. *)
Theorem C4_missing_required_key (A B : Type) (options_cls : yaml → outcome A)
    (single_cls : yaml → outcome B) (data : gmap string yaml) :
  data !! "test_dataset" = None ∨ data !! "input_source" = None →
  load_config_with options_cls single_cls (YMap data)
  = Raise (ValueError (Msg missing_fields_message)).
Proof. intros [H|H]; apply load_config_with_absent; auto. Qed.

Lemma C4_missing_required_key_witness :
  load_config_dict no_conversion sample_module (YMap no_test_dataset_doc)
  = Raise (ValueError (Msg missing_fields_message)).
Proof.
  apply (C4_missing_required_key _ _ _ _ no_test_dataset_doc).
  left. vm_compute. reflexivity.
Defined.

(** C4 as stated fails: for a document without [test_dataset]
    the message raised does not contain the name [test_dataset], and it is
    the message raised for a document without [input_source] too. *)
Lemma C4_error_does_not_identify_test_dataset :
  load_config_dict no_conversion sample_module (YMap no_test_dataset_doc)
    = Raise (ValueError (Msg missing_fields_message))
  ∧ str_contains "test_dataset" missing_fields_message = false
  ∧ load_config_dict no_conversion sample_module (YMap no_input_source_doc)
    = load_config_dict no_conversion sample_module (YMap no_test_dataset_doc).
Proof. split_and!; vm_compute; reflexivity. Qed.

(** The key [k] is none of the names in the list [names]. *)
Ltac other_name :=
  intros ->;
  match goal with H : _ ∉ _ |- _ => apply H end;
  apply (bool_decide_unpack _); vm_compute; exact I.

Lemma options_fields_insert_extra (L : LaxScalars) (M : config_module)
    (data : gmap string yaml) (k : string) (v : yaml) :
  k ∉ DataIngestOptionsConfig.field_names →
  DataIngestOptionsConfig.fields L M (<[k:=v]> data) = DataIngestOptionsConfig.fields L M data.
Proof.
  intros Hk.
  unfold DataIngestOptionsConfig.fields, BaseConfig_input_source, BaseConfig_test_dataset.
  rewrite !required_insert_ne by other_name.
  rewrite !with_default_insert_ne by other_name.
  reflexivity.
Qed.

Lemma single_fields_insert_extra (L : LaxScalars) (data : gmap string yaml)
    (k : string) (v : yaml) :
  k ∉ DataIngestConfig.field_names →
  DataIngestConfig.fields L (<[k:=v]> data) = DataIngestConfig.fields L data.
Proof.
  intros Hk.
  unfold DataIngestConfig.fields, BaseConfig_input_source, BaseConfig_test_dataset.
  rewrite !required_insert_ne by other_name.
  rewrite !with_default_insert_ne by other_name.
  reflexivity.
Qed.

(** C5 (amended). Schema validation ignores a top-level key that is not a
    declared field: for every dictionary, adding such a key (or changing
    its value) leaves the result of the class call unchanged, for the
    multi-option schema, for the single-run schema, and for [load_config]
    when the key is declared by neither. *)
Theorem C5_undeclared_keys_are_ignored (L : LaxScalars) (M : config_module)
    (data : gmap string yaml) (k : string) (v : yaml) :
  (k ∉ DataIngestOptionsConfig.field_names →
     DataIngestOptionsConfig.new L M (YMap (<[k:=v]> data))
     = DataIngestOptionsConfig.new L M (YMap data))
  ∧ (k ∉ DataIngestConfig.field_names →
     DataIngestConfig.new L (YMap (<[k:=v]> data)) = DataIngestConfig.new L (YMap data))
  ∧ (k ∉ DataIngestOptionsConfig.field_names → k ∉ DataIngestConfig.field_names →
     load_config_dict L M (YMap (<[k:=v]> data)) = load_config_dict L M (YMap data)).
Proof.
  split_and!.
  - intros Hk. rewrite !options_new_YMap, options_fields_insert_extra by assumption.
    reflexivity.
  - intros Hk. rewrite !single_new_YMap, single_fields_insert_extra by assumption.
    reflexivity.
  - intros Hk1 Hk2. unfold load_config_dict, load_config_with, py_in.
    rewrite !options_new_YMap, !single_new_YMap.
    rewrite options_fields_insert_extra, single_fields_insert_extra by assumption.
    rewrite !lookup_insert_ne by (clear Hk1; other_name).
    reflexivity.
Qed.

Lemma C5_undeclared_keys_witness :
  DataIngestConfig.new no_conversion (YMap extra_key_doc)
  = DataIngestConfig.new no_conversion (YMap minimal_doc).
Proof.
  apply (C5_undeclared_keys_are_ignored no_conversion sample_module minimal_doc "bogus").
  apply (bool_decide_unpack _). vm_compute. exact I.
Defined.

(** C5 as stated fails: the document with the undeclared key
    [bogus] validates against both schemas, to the records of the document
    without it. *)
Lemma C5_undeclared_key_is_accepted :
  ("bogus" ∉ DataIngestConfig.field_names)
  ∧ ("bogus" ∉ DataIngestOptionsConfig.field_names)
  ∧ DataIngestConfig.new no_conversion (YMap extra_key_doc)
    = Ok (single_defaults (inl "docs/") "qa.csv")
  ∧ DataIngestOptionsConfig.new no_conversion sample_module (YMap extra_key_doc)
    = Ok (options_defaults sample_module (inl "docs/") "qa.csv").
Proof.
  split_and!; try (apply (bool_decide_unpack _); vm_compute; exact I);
    apply (sample_documents_load no_conversion sample_module).
Qed.

(** Every field of a record that validated is the validated input of that
    field. *)
Ltac vap_inversion H :=
  repeat (let g := fresh "g" in let a := fresh "a" in let Ha := fresh "Ha" in
          apply vap_Valid_inv in H as (g & a & H & Ha & ->));
  injection H as <-.

Lemma options_fields_Valid_inv (L : LaxScalars) (M : config_module)
    (data : gmap string yaml) (c : DataIngestOptionsConfig.t) :
  DataIngestOptionsConfig.fields L M data = Valid c →
  BaseConfig_input_source data = Valid (DataIngestOptionsConfig.input_source c)
  ∧ BaseConfig_test_dataset data = Valid (DataIngestOptionsConfig.test_dataset c)
  ∧ with_default "document_loaders" (nullable (validate_list LoaderConfig.validate))
      DataIngestOptionsConfig.default_document_loaders data
    = Valid (DataIngestOptionsConfig.document_loaders c)
  ∧ with_default "chunk_size" (nullable (ChunkSizeConfig.validate L))
      (Some ChunkSizeConfig.default) data
    = Valid (DataIngestOptionsConfig.chunk_size c)
  ∧ with_default "chunk_overlap" (nullable (validate_list (validate_int L)))
      (Some [100]) data
    = Valid (DataIngestOptionsConfig.chunk_overlap c)
  ∧ with_default "optimization" (nullable (OptimizationConfig.validate L M))
      (Some (OptimizationConfig.default M)) data
    = Valid (DataIngestOptionsConfig.optimization c).
Proof.
  unfold DataIngestOptionsConfig.fields. intros H. vap_inversion H. simpl. auto 10.
Qed.

Lemma single_fields_Valid_inv (L : LaxScalars) (data : gmap string yaml)
    (c : DataIngestConfig.t) :
  DataIngestConfig.fields L data = Valid c →
  BaseConfig_input_source data = Valid (DataIngestConfig.input_source c)
  ∧ BaseConfig_test_dataset data = Valid (DataIngestConfig.test_dataset c)
  ∧ with_default "document_loader" LoaderConfig.validate
      DataIngestConfig.default_document_loader data
    = Valid (DataIngestConfig.document_loader c)
  ∧ with_default "chunk_size" (validate_int L) 1000 data
    = Valid (DataIngestConfig.chunk_size c)
  ∧ with_default "chunk_overlap" (validate_int L) 100 data
    = Valid (DataIngestConfig.chunk_overlap c).
Proof.
  unfold DataIngestConfig.fields. intros H. vap_inversion H. simpl. auto 10.
Qed.

(** An integer [chunk_size] or [chunk_overlap] is not a value of the
    multi-option schema, which wants a mapping and a list there. *)
Lemma options_fields_int_chunk_size (L : LaxScalars) (M : config_module)
    (data : gmap string yaml) (n : Z) :
  data !! "chunk_size" = Some (YInt n) ∨ data !! "chunk_overlap" = Some (YInt n) →
  ∃ e, DataIngestOptionsConfig.fields L M data = Invalid e.
Proof.
  intros H. destruct (DataIngestOptionsConfig.fields L M data) as [c|e] eqn:E; [|eauto].
  apply options_fields_Valid_inv in E as (_ & _ & _ & Hsize & Hoverlap & _).
  destruct H as [H|H].
  - rewrite (with_default_present _ _ _ _ _ H) in Hsize. discriminate.
  - rewrite (with_default_present _ _ _ _ _ H) in Hoverlap. discriminate.
Qed.

(** C1 (amended). A document with [input_source], [test_dataset] and no
    other key loads as the multi-option record, with the defaults of the
    multi-option schema in every other field, whenever [input_source] is a
    string or a list of strings and [test_dataset] a string; otherwise
    [load_config] raises the [ValueError] of the single-run validation.  It
    never returns the single-run record. *)
Theorem C1_two_key_document_loads_as_options (L : LaxScalars) (M : config_module)
    (data : gmap string yaml) :
  dom data = {[ "input_source"; "test_dataset" ]} →
  ∃ src ts,
    data !! "input_source" = Some src ∧ data !! "test_dataset" = Some ts ∧
    match validate_str_or_list src, validate_str ts with
    | Valid i, Valid t =>
        load_config_dict L M (YMap data) = Ok (inl (options_defaults M i t))
    | _, _ =>
        ∃ e, load_config_dict L M (YMap data)
             = Raise (ValueError (MsgInvalidConfiguration
                                    (mkValidationError "DataIngestConfig" e)))
    end.
Proof.
  intros Hdom.
  assert (Hs : is_Some (data !! "input_source")).
  { apply elem_of_dom. rewrite Hdom. apply elem_of_union_l, elem_of_singleton. reflexivity. }
  assert (Ht : is_Some (data !! "test_dataset")).
  { apply elem_of_dom. rewrite Hdom. apply elem_of_union_r, elem_of_singleton. reflexivity. }
  assert (Hnone : ∀ k, k ≠ "input_source" → k ≠ "test_dataset" → data !! k = None).
  { intros k H1 H2. apply not_elem_of_dom. rewrite Hdom.
    intros [H|H]%elem_of_union; apply elem_of_singleton in H; contradiction. }
  rewrite load_config_dict_present by assumption.
  destruct Hs as [src Hs], Ht as [ts Ht]. exists src, ts. split_and!; try assumption.
  unfold DataIngestOptionsConfig.fields, DataIngestConfig.fields,
    BaseConfig_input_source, BaseConfig_test_dataset.
  rewrite !(required_present _ _ _ _ Hs), !(required_present _ _ _ _ Ht).
  rewrite !with_default_absent by (apply Hnone; discriminate).
  destruct (validate_str_or_list src), (validate_str ts); simpl; eauto.
Qed.

Lemma C1_two_key_document_witness :
  load_config_dict no_conversion sample_module (YMap minimal_doc)
  = Ok (inl (options_defaults sample_module (inl "docs/") "qa.csv")).
Proof.
  assert (Hdom : dom minimal_doc = {[ "input_source"; "test_dataset" ]}).
  { unfold minimal_doc, dict_display; simpl.
    rewrite !dom_insert_L, dom_empty_L.
    rewrite (right_id_L ∅ (∪)), (comm_L (∪)). reflexivity. }
  destruct (C1_two_key_document_loads_as_options no_conversion sample_module
              minimal_doc Hdom) as (src & ts & Hs & Ht & H).
  vm_compute in Hs. vm_compute in Ht.
  injection Hs as <-. injection Ht as <-. exact H.
Defined.

(** C1 as stated fails: the minimal document loads as the
    multi-option record, whose chunk size is the range 100..500 by 100 and
    whose chunk overlap is the list [100], not as the single-run record
    with chunk size 1000. *)
Lemma C1_minimal_document_is_not_single_run :
  load_config_dict no_conversion sample_module (YMap minimal_doc)
    = Ok (inl (options_defaults sample_module (inl "docs/") "qa.csv"))
  ∧ DataIngestOptionsConfig.chunk_size
      (options_defaults sample_module (inl "docs/") "qa.csv")
    = Some (ChunkSizeConfig.mk 100 500 100)
  ∧ DataIngestOptionsConfig.chunk_overlap
      (options_defaults sample_module (inl "docs/") "qa.csv")
    = Some [100].
Proof. split_and!; [apply (sample_documents_load no_conversion sample_module) | reflexivity | reflexivity]. Qed.

(** The multi-option schema does not see a key it does not declare,
    present or removed. *)
Lemma options_fields_delete_extra (L : LaxScalars) (M : config_module)
    (data : gmap string yaml) (k : string) :
  k ∉ DataIngestOptionsConfig.field_names →
  DataIngestOptionsConfig.fields L M (delete k data) = DataIngestOptionsConfig.fields L M data.
Proof.
  intros Hk. destruct (data !! k) as [v|] eqn:E.
  - rewrite <- (options_fields_insert_extra L M (delete k data) k v Hk).
    now rewrite insert_delete_id.
  - now rewrite delete_id.
Qed.

(** C3 (amended). Which record [load_config] returns follows from which
    schema validates, not from the spelling of a key.  On a document with
    both required keys: if [document_loaders] is a list and the document
    validates against the multi-option schema, the multi-option record is
    returned, with that list validated item by item (one item is enough);
    if [document_loader] is a single mapping, the single-run record is
    returned exactly when the multi-option validation fails and the
    single-run validation succeeds, and then carries that loader; an
    integer [chunk_size] or [chunk_overlap] makes the multi-option
    validation fail, so such a document loads as the single-run record
    whenever it validates against the single-run schema.  When a document
    with a single-mapping [document_loader] validates against the
    multi-option schema, the multi-option record is returned and the
    singular key plays no part: the record is the one of the document
    without that key. *)
Theorem C3_variant_follows_validation (L : LaxScalars) (M : config_module)
    (data : gmap string yaml) :
  is_Some (data !! "input_source") → is_Some (data !! "test_dataset") →
  (∀ loaders c,
     data !! "document_loaders" = Some (YList loaders) →
     DataIngestOptionsConfig.fields L M data = Valid c →
     load_config_dict L M (YMap data) = Ok (inl c)
     ∧ ∃ ls, validate_items LoaderConfig.validate 0 loaders = Valid ls
             ∧ DataIngestOptionsConfig.document_loaders c = Some ls)
  ∧ (∀ loader c,
       data !! "document_loader" = Some (YMap loader) →
       (load_config_dict L M (YMap data) = Ok (inr c)
        ↔ (∃ e, DataIngestOptionsConfig.fields L M data = Invalid e)
          ∧ DataIngestConfig.fields L data = Valid c)
       ∧ (DataIngestConfig.fields L data = Valid c →
          LoaderConfig.fields loader = Valid (DataIngestConfig.document_loader c)))
  ∧ (∀ n c,
       data !! "chunk_size" = Some (YInt n) ∨ data !! "chunk_overlap" = Some (YInt n) →
       DataIngestConfig.fields L data = Valid c →
       load_config_dict L M (YMap data) = Ok (inr c))
  ∧ (∀ n,
       data !! "chunk_size" = Some (YInt n) ∨ data !! "chunk_overlap" = Some (YInt n) →
       ∃ e, DataIngestOptionsConfig.fields L M data = Invalid e)
  ∧ (∀ loader c,
       data !! "document_loader" = Some (YMap loader) →
       DataIngestOptionsConfig.fields L M data = Valid c →
       load_config_dict L M (YMap data) = Ok (inl c)
       ∧ DataIngestOptionsConfig.fields L M (delete "document_loader" data) = Valid c).
Proof.
  intros Hs Ht. split_and!.
  4: { intros n Hn. exact (options_fields_int_chunk_size L M data n Hn). }
  4: { intros loader c Hl Hc. split.
       - rewrite load_config_dict_present, Hc by assumption. reflexivity.
       - rewrite options_fields_delete_extra; [exact Hc|].
         apply (bool_decide_unpack _). vm_compute. exact I. }
  - intros loaders c Hl Hc. split.
    + rewrite load_config_dict_present, Hc by assumption. reflexivity.
    + apply options_fields_Valid_inv in Hc as (_ & _ & Hdl & _).
      rewrite (with_default_present _ _ _ _ _ Hl) in Hdl.
      apply under_Valid_inv in Hdl. simpl in Hdl.
      destruct (validate_items LoaderConfig.validate 0 loaders) as [ls|] eqn:E;
        [|discriminate].
      injection Hdl as <-. eauto.
  - intros loader c Hl. split.
    + rewrite load_config_dict_present by assumption. split.
      * destruct (DataIngestOptionsConfig.fields L M data) as [c'|e]; [discriminate|].
        destruct (DataIngestConfig.fields L data) as [c'|e']; [|discriminate].
        intros [= ->]. eauto.
      * intros [[e ->] ->]. reflexivity.
    + intros Hc. apply single_fields_Valid_inv in Hc as (_ & _ & Hdl & _).
      rewrite (with_default_present _ _ _ _ _ Hl) in Hdl.
      apply under_Valid_inv in Hdl. exact Hdl.
  - intros n c Hn Hc.
    destruct (options_fields_int_chunk_size L M data n Hn) as [e He].
    rewrite load_config_dict_present, He, Hc by assumption. reflexivity.
Qed.

Lemma C3_variant_follows_validation_witness :
  load_config_dict no_conversion sample_module (YMap one_loader_doc)
    = Ok (inl (one_loader_record sample_module))
  ∧ load_config_dict no_conversion sample_module (YMap single_run_doc)
    = Ok (inr single_run_record).
Proof.
  split.
  - assert (Hs : is_Some (one_loader_doc !! "input_source")) by (vm_compute; eauto).
    assert (Ht : is_Some (one_loader_doc !! "test_dataset")) by (vm_compute; eauto).
    destruct (C3_variant_follows_validation no_conversion sample_module one_loader_doc
                Hs Ht) as (H & _ & _).
    apply (H [YMap {["type" := YStr "pypdf"]}]); vm_compute; reflexivity.
  - assert (Hs : is_Some (single_run_doc !! "input_source")) by (vm_compute; eauto).
    assert (Ht : is_Some (single_run_doc !! "test_dataset")) by (vm_compute; eauto).
    destruct (C3_variant_follows_validation no_conversion sample_module single_run_doc
                Hs Ht) as (_ & _ & H & _).
    apply (H 800); [left|]; vm_compute; reflexivity.
Defined.

(** C3 as stated fails in both halves: a document whose
    [document_loader] is a single mapping loads as the multi-option record
    (the key is not a field of that schema and is ignored), and a document
    whose [document_loaders] is a list loads as the single-run record when
    an item of the list is not a valid loader. *)
Lemma C3_key_spelling_does_not_select_the_variant :
  singular_loader_doc !! "document_loader" = Some (YMap {["type" := YStr "pymupdf"]})
  ∧ load_config_dict no_conversion sample_module (YMap singular_loader_doc)
    = Ok (inl (options_defaults sample_module (inl "docs/") "qa.csv"))
  ∧ bad_loaders_doc !! "document_loaders" = Some (YList [YMap {["type" := YStr "bogus"]}])
  ∧ load_config_dict no_conversion sample_module (YMap bad_loaders_doc)
    = Ok (inr (single_defaults (inl "docs/") "qa.csv")).
Proof.
  split_and!; [vm_compute; reflexivity | apply (sample_documents_load no_conversion sample_module)
              | vm_compute; reflexivity | apply (sample_documents_load no_conversion sample_module)].
Qed.

(** C10 (amended). A parsed document that is [None], a boolean or a number
    has no membership test: [load_config] raises a [TypeError] at the check
    of the required keys, before either schema is tried.  A string and a
    list have one (substring, item): such a document gets the [ValueError]
    that names the required fields, unless it contains both names, and then
    a [TypeError] is raised where it is unpacked into keyword arguments.  No
    document that is not a mapping loads. *)
Theorem C10_documents_that_are_not_mappings (L : LaxScalars) (M : config_module)
    (A B : Type) (options_cls : yaml → outcome A) (single_cls : yaml → outcome B) :
  load_config_with options_cls single_cls YNull = Raise (TypeError not_iterable)
  ∧ (∀ b, load_config_with options_cls single_cls (YBool b) = Raise (TypeError not_iterable))
  ∧ (∀ n, load_config_with options_cls single_cls (YInt n) = Raise (TypeError not_iterable))
  ∧ (∀ f, load_config_with options_cls single_cls (YFloat f) = Raise (TypeError not_iterable))
  ∧ (∀ obj, (∃ s, obj = YStr s) ∨ (∃ items, obj = YList items) →
       load_config_dict L M obj
       = match py_in "input_source" obj, py_in "test_dataset" obj with
         | Ok true, Ok true => Raise (TypeError not_a_mapping)
         | _, _ => Raise (ValueError (Msg missing_fields_message))
         end).
Proof.
  split_and!; try reflexivity.
  intros obj [[s ->]|[items ->]];
    unfold load_config_dict, load_config_with, py_in; simpl.
  - destruct (str_contains "input_source" s); simpl; [|reflexivity].
    destruct (str_contains "test_dataset" s); reflexivity.
  - destruct (existsb _ items); simpl; [|reflexivity].
    destruct (existsb _ items); reflexivity.
Qed.

Lemma C10_documents_that_are_not_mappings_witness :
  load_config_dict no_conversion sample_module (YStr "input_source, test_dataset")
  = Raise (TypeError not_a_mapping).
Proof.
  destruct (C10_documents_that_are_not_mappings no_conversion sample_module
              unit unit (λ _, Ok ()) (λ _, Ok ())) as (_ & _ & _ & _ & H).
  rewrite H by (left; eauto). vm_compute. reflexivity.
Defined.

(** C10 as stated fails: a document that is a string or a list,
    hence not a mapping, raises no [TypeError] at the membership check but
    the [ValueError] that names the required fields. *)
Lemma C10_string_document_gets_the_value_error :
  load_config_dict no_conversion sample_module (YStr "hello")
    = Raise (ValueError (Msg missing_fields_message))
  ∧ load_config_dict no_conversion sample_module (YList [YStr "a"; YStr "b"])
    = Raise (ValueError (Msg missing_fields_message)).
Proof. split; vm_compute; reflexivity. Qed.

(** * Saving and loading again *)

Section SafeLoad.

Lemma map_sequence_None {A : Type} (m : gmap string (option A)) (k : string) :
  m !! k = Some None → map_sequence m = None.
Proof.
  intros H. unfold map_sequence. rewrite bool_decide_false; [reflexivity|].
  intros Hall. specialize (Hall k None H). destruct Hall as [? ?]. discriminate.
Qed.

(** An entry that cannot be constructed makes the mapping fail. *)
Lemma safe_construct_NMap_None (entries : gmap string node) (k : string) (n : node) :
  entries !! k = Some n → safe_construct n = None →
  safe_construct (NMap entries) = None.
Proof.
  intros Hk Hn. simpl.
  rewrite (map_sequence_None _ k); [reflexivity|].
  rewrite lookup_fmap, Hk. simpl. now rewrite Hn.
Qed.

(** The same for the represented dictionary of a [model_dump]. *)
Lemma safe_construct_represent_PDict (entries : gmap string pyobj) (k : string)
    (obj : pyobj) :
  entries !! k = Some obj → safe_construct (represent obj) = None →
  safe_construct (represent (PDict entries)) = None.
Proof.
  intros Hk Hobj. simpl. apply (safe_construct_NMap_None _ k (represent obj)).
  - now rewrite lookup_fmap, Hk.
  - exact Hobj.
Qed.

(** A member of an enumeration is written with a tag that the safe loader
    has no constructor for. *)
Lemma safe_construct_represent_enum {E : Type} (cls : string) (value : E → string) (m : E) :
  safe_construct (represent (dump_enum cls value m)) = None.
Proof. reflexivity. Qed.

Lemma lookup_dict_display_last {V : Type} (entries : list (string * V)) (k : string) (v : V) :
  dict_display (entries ++ [(k, v)]) !! k = Some v.
Proof. unfold dict_display. rewrite foldl_app. simpl. apply lookup_insert_eq. Qed.

Lemma lookup_dict_display_first {V : Type} (entries : list (string * V)) (k : string) (v : V) :
  k ∉ entries.*1 → dict_display ((k, v) :: entries) !! k = Some v.
Proof.
  unfold dict_display. simpl. generalize (∅ : gmap string V).
  induction entries as [|[k' v'] rest IH] using rev_ind; intros m Hk; simpl.
  - apply lookup_insert_eq.
  - rewrite foldl_app. simpl. rewrite fmap_app in Hk. simpl in Hk.
    rewrite lookup_insert_ne.
    + apply IH. intros H. apply Hk. apply elem_of_app. now left.
    + intros ->. apply Hk. apply elem_of_app. right. apply list_elem_of_singleton.
      reflexivity.
Qed.

(** What a record always contains: the evaluator type of a multi-option
    record, the loader type of a single-run record. *)
Lemma safe_construct_evaluation_config (c : EvaluationConfig.t) :
  safe_construct (represent (EvaluationConfig.model_dump c)) = None.
Proof.
  unfold EvaluationConfig.model_dump.
  eapply (safe_construct_represent_PDict _ "type").
  - apply lookup_dict_display_first. apply (bool_decide_unpack _). vm_compute. exact I.
  - apply safe_construct_represent_enum.
Qed.

Lemma safe_construct_loader_config (c : LoaderConfig.t) :
  safe_construct (represent (LoaderConfig.model_dump c)) = None.
Proof.
  unfold LoaderConfig.model_dump.
  eapply (safe_construct_represent_PDict _ "type").
  - apply lookup_dict_display_first. apply (bool_decide_unpack _). vm_compute. exact I.
  - apply safe_construct_represent_enum.
Qed.

Lemma safe_load_model_dump (cfg : config) :
  safe_load (represent (model_dump cfg)) = Raise ConstructorError.
Proof.
  unfold safe_load.
  assert (H : safe_construct (represent (model_dump cfg)) = None); [|now rewrite H].
  destruct cfg as [c|c]; simpl model_dump.
  - unfold DataIngestOptionsConfig.model_dump.
    eapply (safe_construct_represent_PDict _ "evaluation_config").
    + apply (lookup_dict_display_last (_ :: _ :: _ :: _ :: _ :: _ :: _ :: _ :: _ :: _
                                        :: _ :: _ :: [_])).
    + apply safe_construct_evaluation_config.
  - unfold DataIngestConfig.model_dump.
    eapply (safe_construct_represent_PDict _ "document_loader").
    + unfold dict_display. cbn [foldl fst snd].
      rewrite !lookup_insert_ne by discriminate. apply lookup_insert_eq.
    + apply safe_construct_loader_config.
Qed.

End SafeLoad.

(** C6, as the code behaves: a file written by [save_config] cannot be
    loaded again.  Every record holds a member of an enumeration (the
    evaluator type, the loader type); [model_dump] keeps the member,
    [yaml.dump] writes it under a [python/object/apply] tag, and
    [yaml.safe_load] in [load_config] has no constructor for that tag.  So
    for every record and every path the second load raises, instead of
    returning an equal record. *)
Theorem C6_saved_file_does_not_load (L : LaxScalars) (M : config_module)
    (cfg : config) (file_path : string) (fs : filesystem) :
  load_config L M (save_config cfg file_path fs) file_path = Raise ConstructorError.
Proof.
  unfold load_config, save_config, to_yaml, read_document, filesystem in *.
  rewrite lookup_insert_eq. simpl.
  rewrite safe_load_model_dump. reflexivity.
Qed.

(** C7, as the code behaves: the default study name is fixed when the
    module is imported and every record built in the process gets that same
    name.  For two documents without an [optimization] key, validated in
    one process at any two moments, the [optimization] field is the default
    record both times, with the name computed from the clock reading and
    the number drawn at import. *)
Theorem C7_default_study_name_is_fixed_at_import (L : LaxScalars) (clock_ms randint : Z)
    (data1 data2 : gmap string yaml) (c1 c2 : DataIngestOptionsConfig.t) :
  let M := import_config clock_ms randint in
  data1 !! "optimization" = None → data2 !! "optimization" = None →
  DataIngestOptionsConfig.fields L M data1 = Valid c1 →
  DataIngestOptionsConfig.fields L M data2 = Valid c2 →
  DataIngestOptionsConfig.optimization c1 = Some (OptimizationConfig.default M)
  ∧ DataIngestOptionsConfig.optimization c2 = DataIngestOptionsConfig.optimization c1
  ∧ OptimizationConfig.fields L M ∅ = Valid (OptimizationConfig.default M)
  ∧ OptimizationConfig.study_name (OptimizationConfig.default M)
    = Some ("data_ingest_" +:+ pretty (clock_ms + randint)).
Proof.
  intros M H1 H2 Hc1 Hc2.
  apply options_fields_Valid_inv in Hc1 as (_ & _ & _ & _ & _ & Ho1).
  apply options_fields_Valid_inv in Hc2 as (_ & _ & _ & _ & _ & Ho2).
  rewrite with_default_absent in Ho1, Ho2 by assumption.
  injection Ho1 as Ho1. injection Ho2 as Ho2.
  split_and!; [congruence | congruence | reflexivity | reflexivity].
Qed.

Lemma C7_default_study_name_witness :
  DataIngestOptionsConfig.optimization
    (options_defaults sample_module (inl "docs/") "qa.csv")
  = Some (OptimizationConfig.default sample_module)
  ∧ OptimizationConfig.study_name (OptimizationConfig.default sample_module)
    = Some "data_ingest_1700000000007".
Proof.
  destruct (C7_default_study_name_is_fixed_at_import no_conversion 1700000000000 7
              minimal_doc extra_key_doc
              (options_defaults sample_module (inl "docs/") "qa.csv")
              (options_defaults sample_module (inl "docs/") "qa.csv"))
    as (H1 & _ & _ & H2); try (vm_compute; reflexivity).
  split; [exact H1 | exact H2].
Defined.

(** * Further properties of components.py *)

Section Enumerations.

Lemma enum_of_value_Some {E : Type} (members : list E) (value : E → string)
    (s : string) (m : E) :
  enum_of_value members value s = Some m → value m = s.
Proof.
  unfold enum_of_value. intros H. apply find_some in H as [_ H].
  now apply String.eqb_eq in H.
Qed.

End Enumerations.

Ltac enum_round_trip :=
  intros s m; split;
  [ apply enum_of_value_Some | intros <-; destruct m; reflexivity ].

(** X1. In every enumeration the values of the members are pairwise
    distinct, so the lookup by value inverts [value]: a string is looked up
    to the member [m] exactly when it is the value of [m] (the comparison is
    exact, case included). *)
Theorem X1_lookup_by_value_inverts_value :
  (∀ s m, GraphType.of_value s = Some m ↔ GraphType.value m = s)
  ∧ (∀ s m, LLMType.of_value s = Some m ↔ LLMType.value m = s)
  ∧ (∀ s m, ParserType.of_value s = Some m ↔ ParserType.value m = s)
  ∧ (∀ s m, ChunkingStrategy.of_value s = Some m ↔ ChunkingStrategy.value m = s)
  ∧ (∀ s m, EmbeddingModel.of_value s = Some m ↔ EmbeddingModel.value m = s)
  ∧ (∀ s m, VectorDatabase.of_value s = Some m ↔ VectorDatabase.value m = s)
  ∧ (∀ s m, RetrieverType.of_value s = Some m ↔ RetrieverType.value m = s)
  ∧ (∀ s m, RerankerType.of_value s = Some m ↔ RerankerType.value m = s)
  ∧ (∀ s m, EvaluatorType.of_value s = Some m ↔ EvaluatorType.value m = s).
Proof. split_and!; enum_round_trip. Qed.

Section PkgSpec.

Lemma str_replace_char_empty (old new : Ascii.ascii) (s : string) :
  str_replace_char old new s = "" ↔ s = "".
Proof. destruct s; simpl; split; intros H; try reflexivity; discriminate. Qed.

Lemma str_truthy_true (s : string) : str_truthy s = true ↔ s ≠ "".
Proof. destruct s; simpl; split; intros H; try done. Qed.

End PkgSpec.

(** X2. What [__post_init__] establishes.  Running it again changes
    nothing; the import name of a constructed [_PkgSpec] is empty only if
    both names given were empty; and a derived import name has no hyphen
    left at any position. *)
Theorem X2_post_init_invariants (install explicit : string) (self : _PkgSpec.t) :
  _PkgSpec.__post_init__ (_PkgSpec.__post_init__ self) = _PkgSpec.__post_init__ self
  ∧ (_PkgSpec.import_name (_PkgSpec.new install explicit) = ""
     ↔ install = "" ∧ explicit = "")
  ∧ (∀ i : nat,
       String.get i (_PkgSpec.import_name (_PkgSpec.of_install_name install))
       ≠ Some "-"%char).
Proof.
  split_and!.
  - destruct self as [i e]. unfold _PkgSpec.__post_init__; simpl.
    destruct (str_truthy e) eqn:He; simpl; [now rewrite He|].
    destruct (str_truthy (str_replace_char "-" "_" i)); reflexivity.
  - unfold _PkgSpec.new, _PkgSpec.__post_init__; simpl.
    destruct (str_truthy explicit) eqn:He; simpl.
    + apply str_truthy_true in He. split; [contradiction | now intros [_ ?]].
    + apply str_truthy_false in He. rewrite str_replace_char_empty. tauto.
  - intros i. unfold _PkgSpec.of_install_name, _PkgSpec.new, _PkgSpec.__post_init__; simpl.
    rewrite str_replace_char_get.
    destruct (String.get i install) as [c|]; simpl; [|discriminate].
    case_bool_decide as Hc; [discriminate|]. congruence.
Qed.

(** X3. [validate] on a spec whose distribution name is not empty: the
    result is the empty string exactly when the import of the spec's import
    name succeeds, and the distribution name (never the import name, when
    the two differ) exactly when the import raises [ImportError]; any other
    exception of the import is not caught. *)
Theorem X3_validate_reports_the_distribution_name {M : Type}
    (import_module : string → import_status M) (self : _PkgSpec.t) :
  _PkgSpec.install_name self ≠ "" →
  (_PkgSpec_validate import_module self = Ok ""
   ↔ ∃ m, import_module (_PkgSpec.import_name self) = Imported m)
  ∧ (_PkgSpec_validate import_module self = Ok (_PkgSpec.install_name self)
     ↔ ∃ text, import_module (_PkgSpec.import_name self) = ImportError_ text)
  ∧ (∀ e, _PkgSpec_validate import_module self = Raise e
          ↔ ∃ text, import_module (_PkgSpec.import_name self) = OtherException e text).
Proof.
  intros Hne. unfold _PkgSpec_validate.
  destruct (import_module (_PkgSpec.import_name self)) as [m|text|e text];
    split_and!; try intros e'; (split; [intros H | intros [x H]]);
    try discriminate; try (injection H as H); subst; eauto; congruence.
Qed.

Lemma X3_validate_witness :
  _PkgSpec_validate (M := unit) (λ name, ImportError_ ("No module named '" +:+ name +:+ "'"))
    (_PkgSpec.new "python-docx" "docx")
  = Ok "python-docx".
Proof.
  apply (X3_validate_reports_the_distribution_name
           (λ name, ImportError_ ("No module named '" +:+ name +:+ "'"))
           (_PkgSpec.new "python-docx" "docx")).
  - discriminate.
  - eexists. reflexivity.
Defined.

Section Substrings.

Lemma prefix_append (s t : string) : String.prefix s (s +:+ t) = true.
Proof.
  induction s as [|c s IH]; simpl.
  - now destruct t.
  - destruct (Ascii.ascii_dec c c); [exact IH | contradiction].
Qed.

Lemma str_contains_prefix (s h : string) :
  String.prefix s h = true → str_contains s h = true.
Proof.
  intros H. destruct h; unfold str_contains; fold str_contains; now rewrite H.
Qed.

Lemma str_contains_here (s t : string) : str_contains s (s +:+ t) = true.
Proof. apply str_contains_prefix, prefix_append. Qed.

Lemma str_contains_later (s a t : string) :
  str_contains s t = true → str_contains s (a +:+ t) = true.
Proof.
  intros H. induction a as [|c a IH]; simpl; [exact H|].
  rewrite IH. apply orb_true_r.
Qed.

End Substrings.



(** X5. The two remaining registry tables.  [LLM_MAP] has an entry for
    [OPENAI] and [AZURE_OPENAI] and for no other member of [LLMType].
    [RERANKER_MAP], unlike the other tables, has an entry for every member
    of [RerankerType], [CUSTOM] included; every entry loads
    [rerankers.Reranker], and the entry of [CUSTOM] is the only one without
    the keys [model_type] and [verbose]. *)
Theorem X5_llm_and_reranker_tables :
  (∀ m, is_Some (table_get LLM_MAP (LLMType.value m))
        ↔ m = LLMType.OPENAI ∨ m = LLMType.AZURE_OPENAI)
  ∧ (∀ m, ∃ entry,
        table_get RERANKER_MAP (RerankerType.value m) = Some entry
        ∧ RerankerEntry.lazy_load entry = lazy_load "rerankers" "Reranker"
        ∧ (RerankerEntry.model_type entry = None ↔ m = RerankerType.CUSTOM)
        ∧ (RerankerEntry.verbose entry = None ↔ m = RerankerType.CUSTOM)).
Proof.
  split.
  - intros []; vm_compute;
      (split; [ first [ by intros [? [=]] | by intros _; auto ]
              | first [ by intros _; eexists | by intros [[=]|[=]] ] ]).
  - intros []; eexists; (split; [vm_compute; reflexivity|]); simpl;
      split_and!; try reflexivity; split; intros; try reflexivity; discriminate.
Qed.

Section DictDisplay.
Context {V : Type}.

(** What a display holds was written in it. *)
Lemma dict_display_lookup_elem (entries : list (string * V)) (k : string) (v : V) :
  dict_display entries !! k = Some v → (k, v) ∈ entries.
Proof.
  unfold dict_display. induction entries as [|[k' v'] rest IH] using rev_ind; simpl.
  - rewrite lookup_empty. discriminate.
  - rewrite foldl_app. simpl. rewrite elem_of_app, list_elem_of_singleton.
    destruct (decide (k' = k)) as [->|Hne].
    + rewrite lookup_insert_eq. intros [= ->]. now right.
    + rewrite lookup_insert_ne by assumption. intros H. left. now apply IH.
Qed.

End DictDisplay.

(** X6. [COMPONENT_ENV_REQUIREMENTS].  Its display writes 31 entries under
    29 distinct keys: the members [COHERE] and [JINA] of [EmbeddingModel]
    and of [RerankerType] have the same values and therefore are the same
    keys.  Nothing is lost by it: every entry as written is what the table
    returns under its key.  In every entry the names of the environment
    variables are non-empty, and so are the distribution name and the
    import name of every package. *)
Theorem X6_requirements_table :
  length COMPONENT_ENV_REQUIREMENTS_display = 31%nat
  ∧ size COMPONENT_ENV_REQUIREMENTS = 29%nat
  ∧ (∀ key entry, (key, entry) ∈ COMPONENT_ENV_REQUIREMENTS_display →
       COMPONENT_ENV_REQUIREMENTS !! key = Some entry)
  ∧ (∀ key entry, COMPONENT_ENV_REQUIREMENTS !! key = Some entry →
       Forall (λ name, name ≠ "") (EnvRequirements.required entry)
       ∧ Forall (λ name, name ≠ "") (EnvRequirements.optional entry)
       ∧ Forall (λ p, _PkgSpec.install_name p ≠ "" ∧ _PkgSpec.import_name p ≠ "")
           (EnvRequirements.packages entry)).
Proof.
  split_and!.
  - reflexivity.
  - vm_compute. reflexivity.
  - intros key entry H. unfold COMPONENT_ENV_REQUIREMENTS_display in H.
    repeat (apply elem_of_cons in H as [[= -> ->]|H]; [vm_compute; reflexivity|]).
    now apply elem_of_nil in H.
  - intros key entry H. apply dict_display_lookup_elem in H.
    unfold COMPONENT_ENV_REQUIREMENTS_display in H.
    repeat (apply elem_of_cons in H as [[= -> ->]|H];
            [simpl; split_and!; repeat constructor; discriminate|]).
    now apply elem_of_nil in H.
Qed.

(** * Further properties of config.py *)

Section FieldsInversion.
Context (L : LaxScalars) (M : config_module).
Implicit Types (data : gmap string yaml).

(** A record validates exactly when each field validates to the field of
    the record. *)
Lemma single_fields_Valid_iff data (c : DataIngestConfig.t) :
  DataIngestConfig.fields L data = Valid c ↔
  BaseConfig_input_source data = Valid (DataIngestConfig.input_source c)
  ∧ BaseConfig_test_dataset data = Valid (DataIngestConfig.test_dataset c)
  ∧ with_default "document_loader" LoaderConfig.validate
      DataIngestConfig.default_document_loader data
    = Valid (DataIngestConfig.document_loader c)
  ∧ with_default "chunking_strategy" ChunkingStrategyConfig.validate
      DataIngestConfig.default_chunking_strategy data
    = Valid (DataIngestConfig.chunking_strategy c)
  ∧ with_default "chunk_size" (validate_int L) 1000 data
    = Valid (DataIngestConfig.chunk_size c)
  ∧ with_default "chunk_overlap" (validate_int L) 100 data
    = Valid (DataIngestConfig.chunk_overlap c)
  ∧ with_default "embedding_model" EmbeddingConfig.validate
      DataIngestConfig.default_embedding_model data
    = Valid (DataIngestConfig.embedding_model c)
  ∧ with_default "vector_database" VectorDBConfig.validate
      DataIngestConfig.default_vector_database data
    = Valid (DataIngestConfig.vector_database c)
  ∧ with_default "sampling_rate" (nullable (validate_float L)) None data
    = Valid (DataIngestConfig.sampling_rate c).
Proof.
  unfold DataIngestConfig.fields. split.
  - intros H. vap_inversion H. simpl. auto 12.
  - intros (-> & -> & -> & -> & -> & -> & -> & -> & ->). now destruct c.
Qed.

Lemma options_fields_Valid_iff data (c : DataIngestOptionsConfig.t) :
  DataIngestOptionsConfig.fields L M data = Valid c ↔
  BaseConfig_input_source data = Valid (DataIngestOptionsConfig.input_source c)
  ∧ BaseConfig_test_dataset data = Valid (DataIngestOptionsConfig.test_dataset c)
  ∧ with_default "document_loaders" (nullable (validate_list LoaderConfig.validate))
      DataIngestOptionsConfig.default_document_loaders data
    = Valid (DataIngestOptionsConfig.document_loaders c)
  ∧ with_default "chunking_strategies"
      (nullable (validate_list ChunkingStrategyConfig.validate))
      DataIngestOptionsConfig.default_chunking_strategies data
    = Valid (DataIngestOptionsConfig.chunking_strategies c)
  ∧ with_default "chunk_size" (nullable (ChunkSizeConfig.validate L))
      (Some ChunkSizeConfig.default) data
    = Valid (DataIngestOptionsConfig.chunk_size c)
  ∧ with_default "chunk_overlap" (nullable (validate_list (validate_int L)))
      (Some [100]) data
    = Valid (DataIngestOptionsConfig.chunk_overlap c)
  ∧ with_default "embedding_models" (nullable (validate_list EmbeddingConfig.validate))
      DataIngestOptionsConfig.default_embedding_models data
    = Valid (DataIngestOptionsConfig.embedding_models c)
  ∧ with_default "vector_databases" (nullable (validate_list VectorDBConfig.validate))
      DataIngestOptionsConfig.default_vector_databases data
    = Valid (DataIngestOptionsConfig.vector_databases c)
  ∧ with_default "sampling_rate" (nullable (validate_float L)) None data
    = Valid (DataIngestOptionsConfig.sampling_rate c)
  ∧ with_default "optimization" (nullable (OptimizationConfig.validate L M))
      (Some (OptimizationConfig.default M)) data
    = Valid (DataIngestOptionsConfig.optimization c)
  ∧ with_default "log_config" (nullable (LogConfig.validate L)) (Some LogConfig.default) data
    = Valid (DataIngestOptionsConfig.log_config c)
  ∧ with_default "database_logging" (nullable (validate_bool L)) (Some true) data
    = Valid (DataIngestOptionsConfig.database_logging c)
  ∧ with_default "database_path" (nullable validate_str) (Some "eval.db") data
    = Valid (DataIngestOptionsConfig.database_path c)
  ∧ with_default "evaluation_config" EvaluationConfig.validate
      DataIngestOptionsConfig.default_evaluation_config data
    = Valid (DataIngestOptionsConfig.evaluation_config c).
Proof.
  unfold DataIngestOptionsConfig.fields. split.
  - intros H. vap_inversion H. simpl. auto 20.
  - intros (-> & -> & -> & -> & -> & -> & -> & -> & -> & -> & -> & -> & -> & ->).
    now destruct c.
Qed.

(** What a returned record says about the document. *)
Lemma load_config_dict_Ok_inv data (r : config) :
  load_config_dict L M (YMap data) = Ok r →
  is_Some (data !! "input_source") ∧ is_Some (data !! "test_dataset")
  ∧ match r with
    | inl c => DataIngestOptionsConfig.fields L M data = Valid c
    | inr c => (∃ e, DataIngestOptionsConfig.fields L M data = Invalid e)
               ∧ DataIngestConfig.fields L data = Valid c
    end.
Proof.
  intros H.
  destruct (data !! "input_source") as [src|] eqn:Hs;
    [|unfold load_config_dict in H; rewrite load_config_with_absent in H by auto;
      discriminate].
  destruct (data !! "test_dataset") as [ts|] eqn:Ht;
    [|unfold load_config_dict in H; rewrite load_config_with_absent in H by auto;
      discriminate].
  rewrite load_config_dict_present in H by (rewrite ?Hs, ?Ht; eauto).
  split_and!; eauto.
  destruct (DataIngestOptionsConfig.fields L M data) as [c'|e].
  - injection H as <-. reflexivity.
  - destruct (DataIngestConfig.fields L data) as [c'|e']; [|discriminate].
    injection H as <-. eauto.
Qed.

End FieldsInversion.

Section RequiredFields.
Implicit Types (data : gmap string yaml).

Lemma validate_items_str_inv (items : list yaml) (i : nat) (l : list string) :
  validate_items validate_str i items = Valid l → items = YStr <$> l.
Proof.
  revert i l. induction items as [|y rest IH]; intros i l; cbn [validate_items].
  - intros [= <-]. reflexivity.
  - intros H. apply vap_Valid_inv in H as (g & tl & H & Htl & ->).
    apply vap_Valid_inv in H as (g' & s & [= <-] & Hy & ->).
    apply under_Valid_inv in Hy.
    destruct y; try discriminate. injection Hy as ->.
    cbn. f_equal. now apply (IH (S i)).
Qed.

(** The value of a [Union[str, List[str]]] field, as it stands in a
    document. *)
Lemma validate_str_or_list_inv (y : yaml) (x : string + list string) :
  validate_str_or_list y = Valid x →
  y = match x with inl s => YStr s | inr l => YList (YStr <$> l) end.
Proof.
  unfold validate_str_or_list.
  destruct y; simpl; try discriminate.
  - intros [= <-]. reflexivity.
  - destruct (validate_items validate_str 0 items) as [l|] eqn:E; [|discriminate].
    intros [= <-]. f_equal. now apply validate_items_str_inv in E.
Qed.

Lemma BaseConfig_input_source_inv data (x : string + list string) :
  BaseConfig_input_source data = Valid x →
  data !! "input_source"
  = Some (match x with inl s => YStr s | inr l => YList (YStr <$> l) end).
Proof.
  unfold BaseConfig_input_source, required.
  destruct (data !! "input_source") as [y|]; [|discriminate].
  intros H. apply under_Valid_inv, validate_str_or_list_inv in H. now subst.
Qed.

Lemma BaseConfig_test_dataset_inv data (s : string) :
  BaseConfig_test_dataset data = Valid s → data !! "test_dataset" = Some (YStr s).
Proof.
  unfold BaseConfig_test_dataset, required.
  destruct (data !! "test_dataset") as [y|]; [|discriminate].
  intros H. apply under_Valid_inv in H. destruct y; try discriminate.
  now injection H as ->.
Qed.

End RequiredFields.



(** X8. [load_config] and [from_yaml].  [load_config] returns the
    multi-option record [c] exactly when [DataIngestOptionsConfig.from_yaml]
    returns [c] for the same file: its check of the required keys rejects
    nothing that the schema accepts.  When it returns a single-run record,
    [DataIngestConfig.from_yaml] returns that record and
    [DataIngestOptionsConfig.from_yaml] raises a validation error. *)
Theorem X8_load_config_agrees_with_from_yaml (L : LaxScalars) (M : config_module)
    (fs : filesystem) (file_path : string) :
  (∀ c, load_config L M fs file_path = Ok (inl c)
        ↔ from_yaml (DataIngestOptionsConfig.new L M) fs file_path = Ok c)
  ∧ (∀ c, load_config L M fs file_path = Ok (inr c) →
          from_yaml (DataIngestConfig.new L) fs file_path = Ok c
          ∧ ∃ e, from_yaml (DataIngestOptionsConfig.new L M) fs file_path
                 = Raise (ValidationError_ e)).
Proof.
  unfold load_config, from_yaml.
  destruct (read_document fs file_path) as [n|e]; simpl;
    [|split; intros c; [split|]; discriminate].
  destruct (safe_load n) as [config_dict|e]; simpl;
    [|split; intros c; [split|]; discriminate].
  assert (Hshape : ∀ r : config, load_config_dict L M config_dict = Ok r →
                     ∃ data, config_dict = YMap data).
  { intros r Hr. destruct config_dict as [| | | |s|items|data]; try discriminate; eauto;
      exfalso; revert Hr; unfold load_config_dict, load_config_with, py_in; simpl.
    - destruct (str_contains "input_source" s); simpl; [|discriminate].
      destruct (str_contains "test_dataset" s); discriminate.
    - destruct (existsb _ items); simpl; [|discriminate].
      destruct (existsb _ items); discriminate. }
  split; intros c.
  - split.
    + intros H. destruct (Hshape _ H) as [data ->].
      apply load_config_dict_Ok_inv in H as (_ & _ & H).
      rewrite options_new_YMap, H. reflexivity.
    + intros H. destruct config_dict as [| | | | | |data]; try discriminate.
      rewrite options_new_YMap in H.
      destruct (DataIngestOptionsConfig.fields L M data) as [c'|] eqn:E; [|discriminate].
      injection H as ->.
      rewrite load_config_dict_present, E; [reflexivity| |].
      * apply options_fields_Valid_iff in E as (E & _).
        apply BaseConfig_input_source_inv in E. rewrite E. eauto.
      * apply options_fields_Valid_iff in E as (_ & E & _).
        apply BaseConfig_test_dataset_inv in E. rewrite E. eauto.
  - intros H. destruct (Hshape _ H) as [data ->].
    apply load_config_dict_Ok_inv in H as (_ & _ & [e He] & H).
    rewrite options_new_YMap, single_new_YMap, H, He. simpl. eauto.
Qed.

Lemma X8_load_config_agrees_witness :
  from_yaml (DataIngestConfig.new no_conversion)
    {["config.yaml" := NMap (<["chunk_size" := NInt 800]>
                               (<["input_source" := NStr "docs/"]>
                                  {["test_dataset" := NStr "qa.csv"]}))]}
    "config.yaml"
  = Ok (DataIngestConfig.mk (inl "docs/") "qa.csv"
          DataIngestConfig.default_document_loader
          DataIngestConfig.default_chunking_strategy
          800 100
          DataIngestConfig.default_embedding_model
          DataIngestConfig.default_vector_database
          None).
Proof.
  apply (X8_load_config_agrees_with_from_yaml no_conversion sample_module).
  vm_compute. reflexivity.
Defined.

(** X9. A record that [load_config] returns carries the required fields of
    the document unchanged: [test_dataset] is the string of the document,
    and [input_source] is its string or its list of strings, item by item
    and in order; no conversion or default takes part. *)
Theorem X9_record_keeps_the_required_fields (L : LaxScalars) (M : config_module)
    (data : gmap string yaml) (r : config) :
  load_config_dict L M (YMap data) = Ok r →
  let input_source :=
    match r with
    | inl c => DataIngestOptionsConfig.input_source c
    | inr c => DataIngestConfig.input_source c
    end in
  let test_dataset :=
    match r with
    | inl c => DataIngestOptionsConfig.test_dataset c
    | inr c => DataIngestConfig.test_dataset c
    end in
  data !! "test_dataset" = Some (YStr test_dataset)
  ∧ data !! "input_source"
    = Some (match input_source with
            | inl s => YStr s
            | inr l => YList (YStr <$> l)
            end).
Proof.
  intros H. apply load_config_dict_Ok_inv in H as (_ & _ & H).
  destruct r as [c|c]; simpl.
  - apply options_fields_Valid_iff in H as (Hi & Ht & _).
    split; [now apply BaseConfig_test_dataset_inv | now apply BaseConfig_input_source_inv].
  - destruct H as [_ H]. apply single_fields_Valid_iff in H as (Hi & Ht & _).
    split; [now apply BaseConfig_test_dataset_inv | now apply BaseConfig_input_source_inv].
Qed.

Lemma X9_record_keeps_the_required_fields_witness :
  minimal_doc !! "test_dataset" = Some (YStr "qa.csv")
  ∧ minimal_doc !! "input_source" = Some (YStr "docs/").
Proof.
  exact (X9_record_keeps_the_required_fields no_conversion sample_module minimal_doc
           (inl (options_defaults sample_module (inl "docs/") "qa.csv"))
           (proj1 (sample_documents_load no_conversion sample_module))).
Defined.

(** X10. The mappings inside a document are validated like the document
    itself: a key that is not a field of the sub-schema is ignored.  A
    misspelt option of a loader, a chunking strategy, a chunk-size range, a
    vector database, an embedding model, the evaluation or the optimization
    therefore changes nothing, and the field it was meant for keeps its
    default. *)
Theorem X10_undeclared_keys_of_sub_mappings (L : LaxScalars) (M : config_module)
    (data : gmap string yaml) (k : string) (v : yaml) :
  (k ∉ ["type"; "loader_kwargs"; "custom_class"] →
     LoaderConfig.fields (<[k:=v]> data) = LoaderConfig.fields data)
  ∧ (k ∉ ["type"; "chunker_kwargs"; "custom_class"] →
     ChunkingStrategyConfig.fields (<[k:=v]> data) = ChunkingStrategyConfig.fields data)
  ∧ (k ∉ ["min"; "max"; "stepsize"] →
     ChunkSizeConfig.fields L (<[k:=v]> data) = ChunkSizeConfig.fields L data)
  ∧ (k ∉ ["type"; "vectordb_kwargs"; "custom_class"] →
     VectorDBConfig.fields (<[k:=v]> data) = VectorDBConfig.fields data)
  ∧ (k ∉ ["type"; "model_kwargs"; "custom_class"] →
     EmbeddingConfig.fields (<[k:=v]> data) = EmbeddingConfig.fields data)
  ∧ (k ∉ ["type"; "custom_class"; "evaluator_kwargs"] →
     EvaluationConfig.fields (<[k:=v]> data) = EvaluationConfig.fields data)
  ∧ (k ∉ ["type"; "n_trials"; "n_jobs"; "timeout"; "storage"; "study_name";
           "load_if_exists"; "overwrite_study"; "optimization_direction"] →
     OptimizationConfig.fields L M (<[k:=v]> data) = OptimizationConfig.fields L M data).
Proof.
  split_and!; intros Hk;
    unfold LoaderConfig.fields, ChunkingStrategyConfig.fields, ChunkSizeConfig.fields,
      VectorDBConfig.fields, EmbeddingConfig.fields, EvaluationConfig.fields,
      OptimizationConfig.fields;
    rewrite ?required_insert_ne by other_name;
    rewrite ?with_default_insert_ne by other_name;
    reflexivity.
Qed.

Lemma X10_undeclared_keys_witness :
  OptimizationConfig.fields no_conversion sample_module {["n_trial" := YInt 50]}
  = Valid (OptimizationConfig.default sample_module).
Proof.
  pose proof (X10_undeclared_keys_of_sub_mappings no_conversion sample_module
                ∅ "n_trial" (YInt 50)) as (_ & _ & _ & _ & _ & _ & H).
  rewrite insert_empty in H. rewrite H; [reflexivity|].
  apply (bool_decide_unpack _). vm_compute. exact I.
Defined.

(** X11. The schemas check types, not ranges.  A chunk-size range
    validates with any three integers, whether or not [min] is below [max]
    and [stepsize] positive.  In a document that validates as single-run,
    [chunk_size] and [chunk_overlap] can be replaced by any integers and
    [sampling_rate] by any float (the field is described as 0.0 to 1.0):
    the document still validates, to the same record with these three
    values. *)
Theorem X11_no_range_is_checked (L : LaxScalars) (data : gmap string yaml)
    (c : DataIngestConfig.t) (lo hi step size overlap : Z) (rate : pyfloat) :
  ChunkSizeConfig.validate L
    (YMap (<["min" := YInt lo]> (<["max" := YInt hi]> {["stepsize" := YInt step]})))
  = Valid (ChunkSizeConfig.mk lo hi step)
  ∧ (DataIngestConfig.fields L data = Valid c →
     DataIngestConfig.fields L
       (<["chunk_size" := YInt size]>
          (<["chunk_overlap" := YInt overlap]> (<["sampling_rate" := YFloat rate]> data)))
     = Valid (DataIngestConfig.mk
                (DataIngestConfig.input_source c) (DataIngestConfig.test_dataset c)
                (DataIngestConfig.document_loader c) (DataIngestConfig.chunking_strategy c)
                size overlap
                (DataIngestConfig.embedding_model c) (DataIngestConfig.vector_database c)
                (Some rate))).
Proof.
  split; [reflexivity|].
  intros H. apply single_fields_Valid_iff in H as (H1 & H2 & H3 & H4 & _ & _ & H7 & H8 & _).
  apply single_fields_Valid_iff. simpl.
  unfold BaseConfig_input_source, BaseConfig_test_dataset in *.
  rewrite !required_insert_ne by discriminate.
  split_and!; try assumption;
    try (rewrite !with_default_insert_ne by discriminate; assumption);
    unfold with_default; rewrite ?lookup_insert_ne by discriminate;
    rewrite lookup_insert_eq; reflexivity.
Qed.

Lemma X11_no_range_is_checked_witness :
  DataIngestConfig.fields no_conversion
    (<["chunk_size" := YInt (-5)]>
       (<["chunk_overlap" := YInt 9000]>
          (<["sampling_rate" := YFloat (PyFloat "-3.5")]> minimal_doc)))
  = Valid (DataIngestConfig.mk (inl "docs/") "qa.csv"
             DataIngestConfig.default_document_loader
             DataIngestConfig.default_chunking_strategy
             (-5) 9000
             DataIngestConfig.default_embedding_model
             DataIngestConfig.default_vector_database
             (Some (PyFloat "-3.5"))).
Proof.
  apply (X11_no_range_is_checked no_conversion minimal_doc
           (single_defaults (inl "docs/") "qa.csv") 0 0 0 (-5) 9000 (PyFloat "-3.5")).
  vm_compute. reflexivity.
Defined.

(** X12. Absent and null are different in the multi-option schema.  For a
    key that is absent the field takes its default; for a key written with
    the value null the field is [None] and the default is not applied.  In
    the single-run schema the loader is not optional: a null
    [document_loader] fails the validation. *)
Theorem X12_null_is_not_absent (L : LaxScalars) (M : config_module)
    (data : gmap string yaml) :
  (∀ c, DataIngestOptionsConfig.fields L M data = Valid c →
     (data !! "document_loaders" = None →
        DataIngestOptionsConfig.document_loaders c
        = DataIngestOptionsConfig.default_document_loaders)
     ∧ (data !! "document_loaders" = Some YNull →
        DataIngestOptionsConfig.document_loaders c = None)
     ∧ (data !! "chunk_size" = None →
        DataIngestOptionsConfig.chunk_size c = Some (ChunkSizeConfig.mk 100 500 100))
     ∧ (data !! "chunk_size" = Some YNull → DataIngestOptionsConfig.chunk_size c = None)
     ∧ (data !! "chunk_overlap" = None →
        DataIngestOptionsConfig.chunk_overlap c = Some [100])
     ∧ (data !! "chunk_overlap" = Some YNull →
        DataIngestOptionsConfig.chunk_overlap c = None)
     ∧ (data !! "optimization" = None →
        DataIngestOptionsConfig.optimization c = Some (OptimizationConfig.default M))
     ∧ (data !! "optimization" = Some YNull →
        DataIngestOptionsConfig.optimization c = None))
  ∧ (data !! "document_loader" = Some YNull →
     ∃ errs, DataIngestConfig.fields L data = Invalid errs).
Proof.
  split.
  - intros c H.
    apply options_fields_Valid_iff in H
      as (_ & _ & H3 & _ & H5 & H6 & _ & _ & _ & H10 & _).
    split_and!; intros Hk.
    + rewrite with_default_absent in H3 by assumption. congruence.
    + rewrite (with_default_present _ _ _ _ _ Hk) in H3. simpl in H3. congruence.
    + rewrite with_default_absent in H5 by assumption. injection H5 as <-. reflexivity.
    + rewrite (with_default_present _ _ _ _ _ Hk) in H5. simpl in H5. congruence.
    + rewrite with_default_absent in H6 by assumption. congruence.
    + rewrite (with_default_present _ _ _ _ _ Hk) in H6. simpl in H6. congruence.
    + rewrite with_default_absent in H10 by assumption. congruence.
    + rewrite (with_default_present _ _ _ _ _ Hk) in H10. simpl in H10. congruence.
  - intros Hk. destruct (DataIngestConfig.fields L data) as [c|errs] eqn:E; [|eauto].
    apply single_fields_Valid_iff in E as (_ & _ & E & _).
    rewrite (with_default_present _ _ _ _ _ Hk) in E. discriminate.
Qed.

Lemma X12_null_is_not_absent_witness :
  DataIngestOptionsConfig.document_loaders
    (options_defaults sample_module (inl "docs/") "qa.csv")
  = DataIngestOptionsConfig.default_document_loaders.
Proof.
  refine (proj1 (proj1 (X12_null_is_not_absent no_conversion sample_module minimal_doc)
                   (options_defaults sample_module (inl "docs/") "qa.csv") _) _);
    vm_compute; reflexivity.
Defined.

(** X13. The default study name depends only on the sum of the clock
    reading in milliseconds and the number drawn: two imports get the same
    name exactly when their sums are equal.  With draws between 1 and 1000,
    imports whose clock readings are 1000 ms or more apart never get the
    same name, and for every smaller distance there are draws that
    collide. *)
Theorem X13_study_name_collisions (clock1 draw1 clock2 draw2 : Z) :
  (import_config clock1 draw1 = import_config clock2 draw2
   ↔ clock1 + draw1 = clock2 + draw2)
  ∧ (1 ≤ draw1 ≤ 1000 → 1 ≤ draw2 ≤ 1000 → 1000 ≤ clock2 - clock1 →
     study_name_default (import_config clock1 draw1)
     ≠ study_name_default (import_config clock2 draw2))
  ∧ (0 ≤ clock2 - clock1 < 1000 →
     ∃ d1 d2, 1 ≤ d1 ≤ 1000 ∧ 1 ≤ d2 ≤ 1000
              ∧ import_config clock1 d1 = import_config clock2 d2).
Proof.
  assert (Hname : ∀ a b c d,
            study_name_default (import_config a b) = study_name_default (import_config c d)
            ↔ a + b = c + d).
  { intros a b c d. unfold import_config; simpl. split.
    - intros H. apply (inj (String.app "data_ingest_")) in H.
      now apply (inj pretty) in H.
    - now intros ->. }
  split_and!.
  - split.
    + intros H. apply Hname. now rewrite H.
    + intros H. unfold import_config. now rewrite H.
  - intros H1 H2 Hd H. apply Hname in H. lia.
  - intros Hd. exists (clock2 - clock1 + 1), 1. split_and!; try lia.
    unfold import_config. f_equal. f_equal. f_equal. lia.
Qed.

Lemma X13_study_name_collisions_witness :
  ∃ d1 d2, 1 ≤ d1 ≤ 1000 ∧ 1 ≤ d2 ≤ 1000
           ∧ import_config 1700000000000 d1 = import_config 1700000000250 d2.
Proof.
  apply (X13_study_name_collisions 1700000000000 1 1700000000250 1). lia.
Defined.

Section MissingFields.

(** Once some errors are found, validating further fields only adds to
    them. *)
Lemma vap_Invalid_starts {A B : Type} (errs : list line_error)
    (f : validated (A → B)) (x : validated A) :
  (∃ more, f = Invalid (errs ++ more)%list) → ∃ more, f <*> x = Invalid (errs ++ more)%list.
Proof.
  intros [more ->]. destruct x as [a|e]; simpl; [eauto|].
  exists (more ++ e)%list. now rewrite app_assoc.
Qed.

End MissingFields.

(** X15. Called on a mapping without the two required keys, each of the
    two classes raises a validation error whose first two entries are a
    [missing] error for [input_source] and one for [test_dataset], in this
    order: [from_yaml] names each missing field, where [load_config] has
    one fixed message. *)
Theorem X15_classes_name_each_missing_field (L : LaxScalars) (M : config_module)
    (data : gmap string yaml) :
  data !! "input_source" = None → data !! "test_dataset" = None →
  (∃ more,
     DataIngestConfig.new L (YMap data)
     = Raise (ValidationError_ (mkValidationError "DataIngestConfig"
         (LineError [LField "input_source"] missing
          :: LineError [LField "test_dataset"] missing :: more))))
  ∧ (∃ more,
       DataIngestOptionsConfig.new L M (YMap data)
       = Raise (ValidationError_ (mkValidationError "DataIngestOptionsConfig"
           (LineError [LField "input_source"] missing
            :: LineError [LField "test_dataset"] missing :: more)))).
Proof.
  intros Hs Ht.
  pose (errs := [LineError [LField "input_source"] missing;
                 LineError [LField "test_dataset"] missing]).
  split.
  - rewrite single_new_YMap.
    assert (H : ∃ more, DataIngestConfig.fields L data = Invalid (errs ++ more)%list).
    { unfold DataIngestConfig.fields. do 7 apply vap_Invalid_starts.
      unfold BaseConfig_input_source, BaseConfig_test_dataset, required.
      rewrite Hs, Ht. exists []. reflexivity. }
    destruct H as [more ->]. simpl. eauto.
  - rewrite options_new_YMap.
    assert (H : ∃ more, DataIngestOptionsConfig.fields L M data = Invalid (errs ++ more)%list).
    { unfold DataIngestOptionsConfig.fields. do 12 apply vap_Invalid_starts.
      unfold BaseConfig_input_source, BaseConfig_test_dataset, required.
      rewrite Hs, Ht. exists []. reflexivity. }
    destruct H as [more ->]. simpl. eauto.
Qed.

Lemma X15_classes_name_each_missing_field_witness :
  ∃ more,
    DataIngestConfig.new no_conversion (YMap ∅)
    = Raise (ValidationError_ (mkValidationError "DataIngestConfig"
        (LineError [LField "input_source"] missing
         :: LineError [LField "test_dataset"] missing :: more))).
Proof.
  apply (X15_classes_name_each_missing_field no_conversion sample_module ∅);
    apply lookup_empty.
Defined.

(** The document has the key [k], or the key is absent. *)
Ltac present_or_absent data k :=
  let E := fresh "E" in
  destruct (data !! k) eqn:E;
  [ exists k; split; [apply (bool_decide_unpack _); vm_compute; exact I | rewrite E; eauto] | ].

(** X16. The single-run record is reached only through a key of the
    multi-option schema.  Whenever [load_config] returns the single-run
    record, the document has at least one key of the multi-option schema
    other than [input_source], [test_dataset] and [sampling_rate] (which
    both schemas validate alike).  Hence a document all of whose keys are
    among [input_source], [test_dataset], [sampling_rate],
    [document_loader], [chunking_strategy], [embedding_model] and
    [vector_database] never loads as the single-run record. *)
Theorem X16_single_run_needs_a_refused_key (L : LaxScalars) (M : config_module)
    (data : gmap string yaml) :
  (∀ c, load_config_dict L M (YMap data) = Ok (inr c) →
     ∃ k, k ∈ ["document_loaders"; "chunking_strategies"; "chunk_size"; "chunk_overlap";
               "embedding_models"; "vector_databases"; "optimization"; "log_config";
               "database_logging"; "database_path"; "evaluation_config"]
          ∧ is_Some (data !! k))
  ∧ ((∀ k, is_Some (data !! k) →
        k ∈ ["input_source"; "test_dataset"; "sampling_rate"; "document_loader";
             "chunking_strategy"; "embedding_model"; "vector_database"]) →
     ∀ c, load_config_dict L M (YMap data) ≠ Ok (inr c)).
Proof.
  assert (Hfirst : ∀ c, load_config_dict L M (YMap data) = Ok (inr c) →
     ∃ k, k ∈ ["document_loaders"; "chunking_strategies"; "chunk_size"; "chunk_overlap";
               "embedding_models"; "vector_databases"; "optimization"; "log_config";
               "database_logging"; "database_path"; "evaluation_config"]
          ∧ is_Some (data !! k)).
  { intros c H. apply load_config_dict_Ok_inv in H as (_ & _ & [e He] & Hc).
    apply single_fields_Valid_iff in Hc as (H1 & H2 & _ & _ & _ & _ & _ & _ & H9).
    present_or_absent data "document_loaders".
    present_or_absent data "chunking_strategies".
    present_or_absent data "chunk_size".
    present_or_absent data "chunk_overlap".
    present_or_absent data "embedding_models".
    present_or_absent data "vector_databases".
    present_or_absent data "optimization".
    present_or_absent data "log_config".
    present_or_absent data "database_logging".
    present_or_absent data "database_path".
    present_or_absent data "evaluation_config".
    exfalso. unfold DataIngestOptionsConfig.fields in He.
    rewrite H1, H2, H9 in He.
    rewrite !with_default_absent in He by assumption.
    discriminate. }
  split; [exact Hfirst|].
  intros Hkeys c H. destruct (Hfirst c H) as (k & Hk & Hsome).
  specialize (Hkeys k Hsome).
  repeat (apply elem_of_cons in Hk as [->|Hk];
          [apply (bool_decide_pack _) in Hkeys; vm_compute in Hkeys; exact Hkeys|]).
  now apply elem_of_nil in Hk.
Qed.

Lemma X16_single_run_needs_a_refused_key_witness :
  ∃ k, k ∈ ["document_loaders"; "chunking_strategies"; "chunk_size"; "chunk_overlap";
            "embedding_models"; "vector_databases"; "optimization"; "log_config";
            "database_logging"; "database_path"; "evaluation_config"]
       ∧ is_Some (single_run_doc !! k).
Proof.
  apply (proj1 (X16_single_run_needs_a_refused_key no_conversion sample_module
                  single_run_doc) single_run_record).
  apply sample_documents_load.
Defined.
